(** * Diagram API handler: a shallow embedding and its verified properties

    The program is the Lambda handler behind [POST /diagrams],
    [GET /diagrams], [GET /diagrams/{diagramId}] and
    [DELETE /diagrams/{diagramId}].  It coordinates three external
    systems: the D2 rendering service (reached over HTTP), an S3 bucket
    holding the rendered artifacts and a DynamoDB table (keys [PK], [SK])
    holding one row per diagram.

    Modelling choices.
    - The DynamoDB table and the S3 bucket form an explicit [World] that
      every operation threads through; each external call appends a [Step]
      (the command and the world right after it) to a trace, so that the
      order of external effects and every intermediate state are visible.
    - JavaScript exceptions are the [Throw] result of a small state and
      exception monad; [try_catch] is the [try { } catch { }] statement.
      A promise that never settles is the [Pending] result: nothing is
      returned and no [catch] sees it.  Only the promise [callD2Service]
      builds by hand can stay pending; library calls complete.
    - Everything the handler cannot decide is read from an [Env]: the
      clock, the random source, the reply of the rendering service and
      the failures of the AWS SDK calls.  [JSON.parse] and
      [getSignedUrl] are library functions and are read from the [Env]
      as well; parsed values inhabit the TypeScript types the source
      declares, any field possibly missing.
    - A response body is the object handed to [JSON.stringify].
    - A [Query] returns one page: the rows of the partition are read in
      key order until the page is full, and the filter is applied to the
      rows read.  The handler never asks for a further page.
    - [Promise.all] runs every callback; when several fail, which failure
      it reports depends on the timing of the calls and is read from the
      [Env]. *)

From Stdlib Require Import ZArith String Ascii List DecimalString.
From stdpp Require Import base option list gmap strings sorting.

Local Open Scope Z_scope.
Local Open Scope string_scope.

(** ** JavaScript strings *)

Definition dquote : ascii := "034"%char.
Definition newline : ascii := "010"%char.
Definition backslash : ascii := "092"%char.

(** Truthiness of a possibly missing string: [undefined] and the empty
    string are falsy. *)
Definition truthy (o : option string) : bool :=
  match o with
  | Some (String _ _) => true
  | _ => false
  end.

(** [hay.includes(needle)] *)
Fixpoint includes (needle hay : string) : bool :=
  String.prefix needle hay ||
  match hay with
  | EmptyString => false
  | String _ t => includes needle t
  end.

(** [s.startsWith(p)] *)
Definition startsWith (p s : string) : bool := String.prefix p s.

(** What is left of [s] after the literal [p], when [s] starts with [p]. *)
Fixpoint drop_prefix (p s : string) : option string :=
  match p, s with
  | EmptyString, _ => Some s
  | String a p', String b s' => if Ascii.eqb a b then drop_prefix p' s' else None
  | String _ _, EmptyString => None
  end.

(** The longest run of characters other than the double quote, and the
    rest. *)
Fixpoint span_not_quote (s : string) : string * string :=
  match s with
  | EmptyString => (EmptyString, EmptyString)
  | String c t =>
      if Ascii.eqb c dquote then (EmptyString, s)
      else let '(run, rest) := span_not_quote t in (String c run, rest)
  end.

(** The literal that opens the pattern: the word message between double
    quotes, a colon and a double quote. *)
Definition message_key : string :=
  String dquote ("message" +:+ String dquote (":" +:+ String dquote EmptyString)).

(** The regular expression of [renderD2Diagram] anchored at the start of
    [s]: the key, then capture group 1 (one or more characters other than
    the double quote), then a double quote.  The greedy class takes the
    whole run; a closing quote must follow and the run must not be
    empty. *)
Definition match_here (s : string) : option string :=
  match drop_prefix message_key s with
  | Some after_key =>
      match span_not_quote after_key with
      | (String c run, String _ _) => Some (String c run)
      | _ => None
      end
  | None => None
  end.

(** [errorMessage.match(...)]: the leftmost match, group 1. *)
Fixpoint match_message (s : string) : option string :=
  match match_here s with
  | Some g => Some g
  | None =>
      match s with
      | EmptyString => None
      | String _ t => match_message t
      end
  end.

(** [match[1].replace(...)]: every backslash followed by [n] becomes a
    line feed. *)
Fixpoint unescape_newlines (s : string) : string :=
  match s with
  | EmptyString => EmptyString
  | String c t =>
      match t with
      | String d t' =>
          if Ascii.eqb c backslash && Ascii.eqb d "n"%char
          then String newline (unescape_newlines t')
          else String c (unescape_newlines t)
      | EmptyString => String c EmptyString
      end
  end.

(** Template interpolation of a number. *)
Definition show (z : Z) : string := NilZero.string_of_int (Z.to_int z).

(** ** Data model *)

#[local] Set Warnings "-register-all".

(** Free-form values ([Record<string, unknown>]). *)
Inductive json : Type :=
| JNull
| JBool (b : bool)
| JNum (z : Z)
| JStr (s : string)
| JArr (l : list json)
| JObj (fields : list (string * json)).

(** Truthiness of a parsed JSON value: [null], [false], zero and the
    empty string are falsy, every array and object is truthy. *)
Definition json_truthy (v : json) : bool :=
  match v with
  | JNull => false
  | JBool b => b
  | JNum z => negb (Z.eqb z 0)
  | JStr s => negb (String.eqb s EmptyString)
  | JArr _ | JObj _ => true
  end.

(** [interface CreateDiagramRequest], as [JSON.parse] delivers it. *)
Record CreateDiagramRequest := {
  d2Text : option string;
  req_diagramType : option string;
  format : option string;
  req_metadata : option json
}.

(** [requestContext.authorizer.jwt.claims] *)
Record Claims := { sub : option string }.

Record Event := {
  claims : option Claims;
  event_body : option string;
  pathParameters_diagramId : option string;
  method : string;
  path : string
}.

(** A row of the table, as [Query] returns it. *)
Record Item := {
  PK : string;
  SK : string;
  diagramId : string;
  diagramType : string;
  createdAt : string;
  s3Key : string;
  metadata : json
}.

(** The attributes of a row other than its key. *)
Record Attrs := {
  a_diagramId : string;
  a_diagramType : string;
  a_createdAt : string;
  a_s3Key : string;
  a_metadata : json
}.

Definition attrs_of (it : Item) : Attrs :=
  {| a_diagramId := diagramId it; a_diagramType := diagramType it;
     a_createdAt := createdAt it; a_s3Key := s3Key it;
     a_metadata := metadata it |}.

Definition item_of (k : string * string) (a : Attrs) : Item :=
  {| PK := k.1; SK := k.2; diagramId := a_diagramId a;
     diagramType := a_diagramType a; createdAt := a_createdAt a;
     s3Key := a_s3Key a; metadata := a_metadata a |}.

(** The table (primary key [PK], [SK]) and the bucket. *)
Record World := {
  catalog : gmap (string * string) Attrs;
  blobs : gmap string string
}.

(** The JSON document posted to [/render]. *)
Record RenderRequest := {
  r_d2Text : string;
  r_format : string;
  r_userId : string;
  r_diagramId : string
}.

(** The reply of the rendering service once parsed: the truthiness of
    [success] and the [s3Key] field. *)
Record RenderReply := {
  success : bool;
  reply_s3Key : option string
}.

(** How the HTTP exchange goes: the ['error'] event of the request, its
    ['timeout'] event, a response that reaches its ['end'] event, or none
    of the three (a response that is cut or keeps trickling in before its
    end: no listener of the source fires). *)
Inductive HttpOutcome :=
| HttpError (message : string)
| HttpTimeout
| HttpResponse (statusCode : Z) (data : string)
| HttpStalled.

(** The object a successful [List] or [Get] describes a diagram with. *)
Record DiagramView := {
  v_diagramId : string;
  v_diagramType : string;
  v_createdAt : string;
  v_s3Url : string;
  v_svgContent : string;
  v_metadata : json
}.

Inductive Body :=
| BError (error : string)
| BFailure (error message : string)
| BCreated (diagramId diagramType createdAt s3Url svgContent : string)
           (renderDuration : Z)
| BDiagrams (diagrams : list DiagramView)
| BDiagram (d : DiagramView)
| BMessage (message : string).

Record Response := {
  statusCode : Z;
  response_body : Body
}.

(** ** External commands, traces and the monad *)

Inductive Action :=
| CallRender (req : RenderRequest)
| DdbPut (it : Item)
| DdbQuery (pk : string) (filter_diagramId : option string) (forward : bool)
| DdbDelete (pk sk : string)
| S3Get (key : string)
| S3Delete (key : string).

Record Step := { action : Action; after : World }.

Record St := { world : World; trace : list Step }.

(** The result of an evaluation: a value, an exception, or a promise
    that never settles. *)
Inductive Res (A : Type) :=
| Ok (a : A)
| Throw (message : string)
| Pending.
Arguments Ok {A} a.
Arguments Throw {A} message.
Arguments Pending {A}.

(** How a library call completes: normally with a value, or abruptly
    with the message of the exception. *)
Inductive Completion (A : Type) :=
| Normal (a : A)
| Abrupt (message : string).
Arguments Normal {A} a.
Arguments Abrupt {A} message.

Definition completed {A} (c : Completion A) : Res A :=
  match c with
  | Normal a => Ok a
  | Abrupt message => Throw message
  end.

Definition M (A : Type) : Type := St -> Res A * St.

Definition ret {A} (a : A) : M A := fun st => (Ok a, st).

Definition throw {A} (message : string) : M A := fun st => (Throw message, st).

Definition bind {A B} (m : M A) (k : A -> M B) : M B :=
  fun st =>
    match m st with
    | (Ok a, st') => k a st'
    | (Throw e, st') => (Throw e, st')
    | (Pending, st') => (Pending, st')
    end.

Definition try_catch {A} (m : M A) (handler : string -> M A) : M A :=
  fun st =>
    match m st with
    | (Ok a, st') => (Ok a, st')
    | (Throw e, st') => handler e st'
    | (Pending, st') => (Pending, st')
    end.

Definition pending {A} : M A := fun st => (Pending, st).

Definition lift {A} (r : Res A) : M A := fun st => (r, st).

Notation "'let!' x ':=' m 'in' k" := (bind m (fun x => k))
  (at level 10, x name, m at level 100, k at level 200, only parsing).
Notation "m ';;' k" := (bind m (fun _ => k))
  (at level 100, k at level 200, right associativity, only parsing).

(** One external command: it is recorded with the world it leaves. *)
Definition record_step (a : Action) (w : World) : M unit :=
  fun st => (Ok tt, {| world := w; trace := trace st ++ [{| action := a; after := w |}] |}).

Definition get_world : M World := fun st => (Ok (world st), st).

(** An AWS SDK call: either it fails with the SDK's message and changes
    nothing, or it applies its effect. *)
Definition sdk_send (a : Action) (fault : option string) (effect : World -> World) : M unit :=
  let! w := get_world in
  match fault with
  | Some e => record_step a w ;; throw e
  | None => record_step a (effect w)
  end.

(** ** The environment *)

Record Env := {
  request_parser : string -> Completion (option CreateDiagramRequest);
  JSON_parse_reply : string -> option (option RenderReply);
  toISOString_now : string;
  Date_now : nat -> Z;
  Math_random_36 : string;
  d2_worker : RenderRequest -> gmap string string -> HttpOutcome * gmap string string;
  presigner : string -> Completion string;
  sdk_fault : Action -> option string;
  s3_body_missing : string -> bool;
  page_rows : list Item -> nat;
  first_rejection : list string -> nat
}.

(** [JSON.parse(event.body)] and [getSignedUrl(s3Client, command, ...)]:
    library calls, which return or throw. *)
Definition JSON_parse_request (env : Env) (s : string)
    : Res (option CreateDiagramRequest) :=
  completed (request_parser env s).

Definition getSignedUrl (env : Env) (s3Key : string) : Res string :=
  completed (presigner env s3Key).

(** ** The external systems *)

(** [PutCommand], [DeleteCommand] and [DeleteObjectCommand] on the world. *)
Definition put_item (it : Item) (w : World) : World :=
  {| catalog := <[(PK it, SK it) := attrs_of it]> (catalog w); blobs := blobs w |}.

Definition delete_item (pk sk : string) (w : World) : World :=
  {| catalog := delete (pk, sk) (catalog w); blobs := blobs w |}.

Definition delete_blob (key : string) (w : World) : World :=
  {| catalog := catalog w; blobs := delete key (blobs w) |}.

(** Rows come back ordered by sort key, compared byte by byte. *)
Definition SK_le (a b : Item) : Prop := String.le (SK a) (SK b).

#[local] Instance SK_le_dec : RelDecision SK_le.
Proof. intros a b. unfold SK_le. apply _. Defined.

(** The rows of one partition ([KeyConditionExpression: 'PK = :pk']) in
    ascending order of [SK]. *)
Definition partition_of (pk : string) (t : gmap (string * string) Attrs) : list Item :=
  merge_sort SK_le
    (map (fun ka => item_of ka.1 ka.2)
         (map_to_list (filter (fun ka => ka.1.1 = pk) t))).

(** The whole result of a query, all pages together: the partition, in
    the direction [ScanIndexForward] asks for, then the
    [FilterExpression: 'diagramId = :diagramId']. *)
Definition run_query (pk : string) (filter_diagramId : option string) (forward : bool)
    (t : gmap (string * string) Attrs) : list Item :=
  let ascending := partition_of pk t in
  let ordered := if forward then ascending else reverse ascending in
  match filter_diagramId with
  | Some d => filter (fun it => diagramId it = d) ordered
  | None => ordered
  end.

(** The [Items] of one [QueryCommand]: the first page.  The table reads
    the rows of the partition in order until the page is full
    ([page_rows] of them: the size limit of a page is measured on the
    rows read) and only then applies the filter.  The source sends one
    command and never follows [LastEvaluatedKey]. *)
Definition query_page (env : Env) (pk : string) (filter_diagramId : option string)
    (forward : bool) (t : gmap (string * string) Attrs) : list Item :=
  let ascending := partition_of pk t in
  let ordered := if forward then ascending else reverse ascending in
  let read := take (page_rows env ordered) ordered in
  match filter_diagramId with
  | Some d => filter (fun it => diagramId it = d) read
  | None => read
  end.

Definition ddb_query (env : Env) (pk : string) (filter_diagramId : option string)
    (forward : bool) : M (list Item) :=
  let command := DdbQuery pk filter_diagramId forward in
  let! w := get_world in
  sdk_send command (sdk_fault env command) id ;;
  ret (query_page env pk filter_diagramId forward (catalog w)).

Definition ddb_put (env : Env) (it : Item) : M unit :=
  sdk_send (DdbPut it) (sdk_fault env (DdbPut it)) (put_item it).

Definition ddb_delete (env : Env) (pk sk : string) : M unit :=
  sdk_send (DdbDelete pk sk) (sdk_fault env (DdbDelete pk sk)) (delete_item pk sk).

Definition s3_delete (env : Env) (key : string) : M unit :=
  sdk_send (S3Delete key) (sdk_fault env (S3Delete key)) (delete_blob key).

(** [GetObjectCommand]: the [Body] of the response, when there is one.
    A key the bucket does not hold makes the call fail. *)
Definition s3_get (env : Env) (key : string) : M (option string) :=
  let! w := get_world in
  match blobs w !! key with
  | None => sdk_send (S3Get key) (Some "The specified key does not exist.") id ;; ret None
  | Some content =>
      sdk_send (S3Get key) (sdk_fault env (S3Get key)) id ;;
      ret (if s3_body_missing env key then None else Some content)
  end.

(** ** The handler *)

(** [s.substring(n)] *)
Definition substring_from (n : nat) (s : string) : string :=
  String.substring n (String.length s - n)%nat s.

Definition getUserId (event : Event) : Res string :=
  match claims event with
  | Some c =>
      if negb (truthy (sub c))
      then Throw "Unauthorized: No valid user identity found"
      else Ok (default EmptyString (sub c))
  | None => Throw "Unauthorized: No valid user identity found"
  end.

Definition callD2Service (env : Env) (d2Text format userId diagramId : string) : M string :=
  let payload := {| r_d2Text := d2Text; r_format := format;
                    r_userId := userId; r_diagramId := diagramId |} in
  let! w := get_world in
  let '(outcome, blobs') := d2_worker env payload (blobs w) in
  record_step (CallRender payload) {| catalog := catalog w; blobs := blobs' |} ;;
  match outcome with
  | HttpResponse statusCode data =>
      if Z.eqb statusCode 200 then
        match JSON_parse_reply env data with
        | Some (Some response) =>
            if success response && truthy (reply_s3Key response)
            then ret (default EmptyString (reply_s3Key response))
            else throw "D2 service returned invalid response"
        | _ => throw "Failed to parse D2 service response"
        end
      else throw ("D2 service returned status " +:+ show statusCode +:+ ": " +:+ data)
  | HttpError message => throw message
  | HttpTimeout => throw "D2 service request timed out"
  | HttpStalled => pending
  end.

Definition renderD2Diagram (env : Env) (d2Text format userId diagramId : string) : M string :=
  try_catch
    (let! s3Key := callD2Service env d2Text format userId diagramId in
     ret s3Key)
    (fun errorMessage =>
       (if includes "D2 service returned status 500" errorMessage then
          try_catch
            (match match_message errorMessage with
             | Some group1 =>
                 let d2Error := unescape_newlines group1 in
                 throw ("D2 Syntax Error:" +:+ String newline d2Error)
             | None => ret tt
             end)
            (fun parseError => ret tt)
        else ret tt) ;;
       throw "Diagram rendering failed. Please check your D2 syntax and try again.").

Definition generateSignedUrl (env : Env) (s3Key : string) : M string :=
  lift (getSignedUrl env s3Key).

Definition fetchSvgFromS3 (env : Env) (s3Key : string) : M string :=
  try_catch
    (let! response_Body := s3_get env s3Key in
     match response_Body with
     | None => throw "Empty response from S3"
     | Some svgContent => ret svgContent
     end)
    (fun error => throw "Failed to fetch diagram content from S3").

(** [items.map(f)] with an [async] callback: every callback is started
    and runs, whatever becomes of the others.  The commands of the
    callbacks are recorded in the order of the list. *)
Fixpoint map_async {A B} (f : A -> M B) (items : list A) (st : St) : list (Res B) * St :=
  match items with
  | [] => ([], st)
  | item :: rest =>
      let '(r, st1) := f item st in
      let '(rs, st2) := map_async f rest st1 in
      (r :: rs, st2)
  end.

Definition rejection {B} (r : Res B) : option string :=
  match r with
  | Throw message => Some message
  | _ => None
  end.

(** The values of the promises when every one of them is fulfilled. *)
Fixpoint fulfilled {B} (rs : list (Res B)) : option (list B) :=
  match rs with
  | [] => Some []
  | Ok b :: rest =>
      match fulfilled rest with
      | Some bs => Some (b :: bs)
      | None => None
      end
  | _ :: _ => None
  end.

(** [Promise.all]: the values in the order of the promises when all are
    fulfilled; the rejection that comes first in time when some are
    rejected ([first_rejection] picks it among the rejections); pending
    otherwise. *)
Definition promise_all {B} (env : Env) (rs : list (Res B)) : Res (list B) :=
  match fulfilled rs with
  | Some bs => Ok bs
  | None =>
      match omap rejection rs with
      | [] => Pending
      | message :: others =>
          Throw (default message ((message :: others) !! first_rejection env (message :: others)))
      end
  end.

(** [Promise.all(items.map(f))] *)
Definition promise_all_map {A B} (env : Env) (f : A -> M B) (items : list A) : M (list B) :=
  fun st =>
    let '(rs, st') := map_async f items st in
    (promise_all env rs, st').

Definition view_of (item : Item) (signedUrl svgContent : string) : DiagramView :=
  {| v_diagramId := diagramId item; v_diagramType := diagramType item;
     v_createdAt := createdAt item; v_s3Url := signedUrl;
     v_svgContent := svgContent; v_metadata := metadata item |}.

Definition new_diagramId (env : Env) : string :=
  show (Date_now env 0) +:+ "-" +:+ substring_from 7 (Math_random_36 env).

Definition new_item (env : Env) (userId : string) (body : CreateDiagramRequest)
    (s3Key : string) : Item :=
  let createdAt := toISOString_now env in
  let diagramId := new_diagramId env in
  {| PK := "USER#" +:+ userId;
     SK := "DIAGRAM#" +:+ createdAt +:+ "#" +:+ diagramId;
     diagramId := diagramId;
     diagramType := default EmptyString (req_diagramType body);
     createdAt := createdAt;
     s3Key := s3Key;
     metadata := match req_metadata body with
                 | Some v => if json_truthy v then v else JObj []
                 | None => JObj []
                 end |}.

(** [POST /diagrams] *)
Definition createDiagram (env : Env) (event : Event) : M Response :=
  try_catch
    (let! userId := lift (getUserId event) in
     if negb (truthy (event_body event)) then
       ret {| statusCode := 400; response_body := BError "Missing request body" |}
     else
       let! parsed := lift (JSON_parse_request env (default EmptyString (event_body event))) in
       let! body :=
         match parsed with
         | Some b => ret b
         | None => throw "Cannot read properties of null (reading 'd2Text')"
         end in
       if negb (truthy (d2Text body)) || negb (truthy (req_diagramType body)) then
         ret {| statusCode := 400;
                response_body := BError "Missing required fields: d2Text, diagramType" |}
       else
         let createdAt := toISOString_now env in
         let diagramId := new_diagramId env in
         let startTime := Date_now env 1 in
         let! s3Key := renderD2Diagram env (default EmptyString (d2Text body))
                         (if truthy (format body) then default EmptyString (format body)
                          else "svg")
                         userId diagramId in
         let renderDuration := Date_now env 2 - startTime in
         let item := new_item env userId body s3Key in
         ddb_put env item ;;
         let! signedUrl := generateSignedUrl env s3Key in
         let! svgContent := fetchSvgFromS3 env s3Key in
         ret {| statusCode := 201;
                response_body :=
                  BCreated diagramId (default EmptyString (req_diagramType body))
                           createdAt signedUrl svgContent renderDuration |})
    (fun message =>
       ret {| statusCode := 500;
              response_body := BFailure "Failed to create diagram" message |}).

(** [GET /diagrams] *)
Definition listDiagrams (env : Env) (event : Event) : M Response :=
  try_catch
    (let! userId := lift (getUserId event) in
     let! result_Items := ddb_query env ("USER#" +:+ userId) None false in
     let! diagrams :=
       promise_all_map env
         (fun item =>
            let! signedUrl := generateSignedUrl env (s3Key item) in
            let! svgContent := fetchSvgFromS3 env (s3Key item) in
            ret (view_of item signedUrl svgContent))
         result_Items in
     ret {| statusCode := 200; response_body := BDiagrams diagrams |})
    (fun message =>
       ret {| statusCode := 500;
              response_body := BFailure "Failed to list diagrams" message |}).

(** [GET /diagrams/{diagramId}] *)
Definition getDiagram (env : Env) (event : Event) : M Response :=
  try_catch
    (let! userId := lift (getUserId event) in
     let diagramId := pathParameters_diagramId event in
     if negb (truthy diagramId) then
       ret {| statusCode := 400; response_body := BError "Missing diagramId" |}
     else
       let! queryResult_Items :=
         ddb_query env ("USER#" +:+ userId) (Some (default EmptyString diagramId)) true in
       match queryResult_Items with
       | [] => ret {| statusCode := 404; response_body := BError "Diagram not found" |}
       | item :: _ =>
           let! signedUrl := generateSignedUrl env (s3Key item) in
           let! svgContent := fetchSvgFromS3 env (s3Key item) in
           ret {| statusCode := 200;
                  response_body := BDiagram (view_of item signedUrl svgContent) |}
       end)
    (fun message =>
       ret {| statusCode := 500;
              response_body := BFailure "Failed to get diagram" message |}).

(** [DELETE /diagrams/{diagramId}] *)
Definition deleteDiagram (env : Env) (event : Event) : M Response :=
  try_catch
    (let! userId := lift (getUserId event) in
     let diagramId := pathParameters_diagramId event in
     if negb (truthy diagramId) then
       ret {| statusCode := 400; response_body := BError "Missing diagramId" |}
     else
       let! queryResult_Items :=
         ddb_query env ("USER#" +:+ userId) (Some (default EmptyString diagramId)) true in
       match queryResult_Items with
       | [] => ret {| statusCode := 404; response_body := BError "Diagram not found" |}
       | item :: _ =>
           s3_delete env (s3Key item) ;;
           ddb_delete env (PK item) (SK item) ;;
           ret {| statusCode := 200;
                  response_body := BMessage "Diagram deleted successfully" |}
       end)
    (fun message =>
       ret {| statusCode := 500;
              response_body := BFailure "Failed to delete diagram" message |}).

(** The Lambda entry point. *)
Definition handler (env : Env) (event : Event) : M Response :=
  try_catch
    (if String.eqb (method event) "POST" && String.eqb (path event) "/diagrams" then
       createDiagram env event
     else if String.eqb (method event) "GET" && String.eqb (path event) "/diagrams" then
       listDiagrams env event
     else if String.eqb (method event) "GET" && startsWith "/diagrams/" (path event) then
       getDiagram env event
     else if String.eqb (method event) "DELETE" && startsWith "/diagrams/" (path event) then
       deleteDiagram env event
     else
       ret {| statusCode := 404; response_body := BError "Not found" |})
    (fun message =>
       ret {| statusCode := 500;
              response_body := BFailure "Internal server error" message |}).

(** ** Fixtures: concrete environments, events and states *)

Module Fixture.

Definition quoted (s : string) : string :=
  String dquote (s +:+ String dquote EmptyString).

(** The body of a 500 reply of the rendering service: an object whose
    message field is the diagnostic. *)
Definition diagnostic_data (diagnostic : string) : string :=
  "{" +:+ quoted "message" +:+ ":" +:+ quoted diagnostic +:+ "}".

Definition flow_request : CreateDiagramRequest :=
  {| d2Text := Some "x->y"; req_diagramType := Some "flow";
     format := None; req_metadata := None |}.

Definition empty_source_request : CreateDiagramRequest :=
  {| d2Text := Some EmptyString; req_diagramType := Some "flow";
     format := None; req_metadata := None |}.

(** A request whose metadata is [null]. *)
Definition null_metadata_request : CreateDiagramRequest :=
  {| d2Text := Some "x->y"; req_diagramType := Some "flow";
     format := None; req_metadata := Some JNull |}.

(** A stand-in for [JSON.parse] on request bodies that knows three
    documents. *)
Definition parse_request (s : string) : Completion (option CreateDiagramRequest) :=
  if String.eqb s "flow" then Normal (Some flow_request)
  else if String.eqb s "empty" then Normal (Some empty_source_request)
  else if String.eqb s "null-metadata" then Normal (Some null_metadata_request)
  else Abrupt "Unexpected token in JSON".

(** A stand-in for [JSON.parse] on replies of the rendering service. *)
Definition parse_reply (s : string) : option (option RenderReply) :=
  match drop_prefix "key=" s with
  | Some k => Some (Some {| success := true; reply_s3Key := Some k |})
  | None => None
  end.

(** A rendering service that stores the artifact and answers 200. *)
Definition worker_ok (req : RenderRequest) (b : gmap string string)
    : HttpOutcome * gmap string string :=
  let k := "diagrams/" +:+ r_userId req +:+ "/" +:+ r_diagramId req +:+ ".svg" in
  (HttpResponse 200 ("key=" +:+ k), <[k := "<svg/>"]> b).

(** A rendering service that rejects the source with a diagnostic. *)
Definition worker_500 (req : RenderRequest) (b : gmap string string)
    : HttpOutcome * gmap string string :=
  (HttpResponse 500 (diagnostic_data "unexpected token"), b).

Definition no_fault (a : Action) : option string := None.

Definition fetch_fault (a : Action) : option string :=
  match a with
  | S3Get _ => Some "Service Unavailable"
  | _ => None
  end.

Definition sign (k : string) : Completion string :=
  Normal ("https://bucket/" +:+ k +:+ "?signed").

(** Every page holds a hundred rows, and of several rejections the first
    in the order of the list comes first in time. *)
Definition make_env (random : string) (worker : RenderRequest -> gmap string string ->
    HttpOutcome * gmap string string) (fault : Action -> option string) : Env :=
  {| request_parser := parse_request;
     JSON_parse_reply := parse_reply;
     toISOString_now := "2024-01-01T00:00:00.000Z";
     Date_now := fun n => 1704067200000 + Z.of_nat n;
     Math_random_36 := random;
     d2_worker := worker;
     presigner := sign;
     sdk_fault := fault;
     s3_body_missing := fun _ => false;
     page_rows := fun _ => 100%nat;
     first_rejection := fun _ => 0%nat |}.

Definition env_ok : Env := make_env "0.4fzyo82mvyr" worker_ok no_fault.
Definition env_ok' : Env := make_env "0.9k3x1q7pabc" worker_ok no_fault.
Definition env_500 : Env := make_env "0.4fzyo82mvyr" worker_500 no_fault.
Definition env_fetch_fault : Env := make_env "0.4fzyo82mvyr" worker_ok fetch_fault.

Definition request (user : option string) (m p : string) (b id : option string) : Event :=
  {| claims := Some {| sub := user |}; event_body := b;
     pathParameters_diagramId := id; method := m; path := p |}.

Definition create_by (user : string) : Event :=
  request (Some user) "POST" "/diagrams" (Some "flow") None.
Definition create_empty_by (user : string) : Event :=
  request (Some user) "POST" "/diagrams" (Some "empty") None.
Definition create_null_metadata_by (user : string) : Event :=
  request (Some user) "POST" "/diagrams" (Some "null-metadata") None.
Definition list_by (user : string) : Event :=
  request (Some user) "GET" "/diagrams" None None.
Definition get_by (user id : string) : Event :=
  request (Some user) "GET" ("/diagrams/" +:+ id) None (Some id).
Definition delete_by (user id : string) : Event :=
  request (Some user) "DELETE" ("/diagrams/" +:+ id) None (Some id).
Definition anonymous (m p : string) : Event :=
  request None m p (Some "flow") (Some "d1").

Definition st0 : St := {| world := {| catalog := ∅; blobs := ∅ |}; trace := [] |}.

(** Alice has created one diagram. *)
Definition st1 : St := (createDiagram env_ok (create_by "alice") st0).2.

(** Alice has created two diagrams within the same millisecond. *)
Definition st2 : St := (createDiagram env_ok' (create_by "alice") st1).2.

(** The row and the key of Alice's first diagram. *)
Definition alice_key : string := "diagrams/alice/1704067200000-82mvyr.svg".
Definition alice_item : Item := new_item env_ok "alice" flow_request alice_key.

(** What List shows of Alice's two diagrams, newest sort key first. *)
Definition alice_second_view : DiagramView :=
  {| v_diagramId := "1704067200000-q7pabc"; v_diagramType := "flow";
     v_createdAt := "2024-01-01T00:00:00.000Z";
     v_s3Url := "https://bucket/diagrams/alice/1704067200000-q7pabc.svg?signed";
     v_svgContent := "<svg/>"; v_metadata := JObj [] |}.
Definition alice_first_view : DiagramView :=
  {| v_diagramId := "1704067200000-82mvyr"; v_diagramType := "flow";
     v_createdAt := "2024-01-01T00:00:00.000Z";
     v_s3Url := "https://bucket/diagrams/alice/1704067200000-82mvyr.svg?signed";
     v_svgContent := "<svg/>"; v_metadata := JObj [] |}.

(** Bob then creates a diagram that receives the very id of Alice's. *)
Definition st3 : St := (createDiagram env_ok (create_by "bob") st1).2.

(** The same state without Alice's row. *)
Definition st3_without_alice : St :=
  {| world := delete_item "USER#alice"
                "DIAGRAM#2024-01-01T00:00:00.000Z#1704067200000-82mvyr" (world st3);
     trace := trace st3 |}.

(** A rendering service that does not answer in time. *)
Definition worker_timeout (req : RenderRequest) (b : gmap string string)
    : HttpOutcome * gmap string string :=
  (HttpTimeout, b).

Definition env_timeout : Env := make_env "0.4fzyo82mvyr" worker_timeout no_fault.

(** The table refuses to delete rows. *)
Definition row_delete_fault (a : Action) : option string :=
  match a with
  | DdbDelete _ _ => Some "ProvisionedThroughputExceededException"
  | _ => None
  end.

Definition env_row_delete_fault : Env :=
  make_env "0.4fzyo82mvyr" worker_ok row_delete_fault.

(** Alice's Delete removed the blob but not the row. *)
Definition st_half_deleted : St :=
  (deleteDiagram env_row_delete_fault (delete_by "alice" "1704067200000-82mvyr") st1).2.

(** The environment [env] at another time: the clock prints [iso] and
    counts [millis] milliseconds. *)
Definition at_time (iso : string) (millis : Z) (env : Env) : Env :=
  {| request_parser := request_parser env;
     JSON_parse_reply := JSON_parse_reply env;
     toISOString_now := iso;
     Date_now := fun n => millis + Z.of_nat n;
     Math_random_36 := Math_random_36 env;
     d2_worker := d2_worker env;
     presigner := presigner env;
     sdk_fault := sdk_fault env;
     s3_body_missing := s3_body_missing env;
     page_rows := page_rows env;
     first_rejection := first_rejection env |}.

(** Alice creates a second diagram one second after the first. *)
Definition env_later : Env := at_time "2024-01-01T00:00:01.000Z" 1704067201000 env_ok.
Definition st_later : St := (createDiagram env_later (create_by "alice") st1).2.

Definition alice_later_view : DiagramView :=
  {| v_diagramId := "1704067201000-82mvyr"; v_diagramType := "flow";
     v_createdAt := "2024-01-01T00:00:01.000Z";
     v_s3Url := "https://bucket/diagrams/alice/1704067201000-82mvyr.svg?signed";
     v_svgContent := "<svg/>"; v_metadata := JObj [] |}.

(** Two creations of Alice that received the same id: the timestamps of
    the rows differ by a millisecond, the clock reading in the id and
    the random suffix are the same. *)
Definition env_early : Env := at_time "2024-01-01T00:00:00.000Z" 1704067200001 env_ok.
Definition env_twin : Env := at_time "2024-01-01T00:00:00.001Z" 1704067200001 env_ok.
Definition st_twins : St :=
  (createDiagram env_twin (create_by "alice")
     (createDiagram env_early (create_by "alice") st0).2).2.

Definition twin_key : string := "diagrams/alice/1704067200001-82mvyr.svg".
Definition older_twin : Item := new_item env_early "alice" flow_request twin_key.
Definition younger_twin : Item := new_item env_twin "alice" flow_request twin_key.

Definition older_twin_view : DiagramView :=
  {| v_diagramId := "1704067200001-82mvyr"; v_diagramType := "flow";
     v_createdAt := "2024-01-01T00:00:00.000Z";
     v_s3Url := "https://bucket/diagrams/alice/1704067200001-82mvyr.svg?signed";
     v_svgContent := "<svg/>"; v_metadata := JObj [] |}.

(** Alice has two diagrams and the bucket has lost the content of the
    first. *)
Definition st2_blob_lost : St :=
  {| world := delete_blob alice_key (world st2); trace := trace st2 |}.

(** A rendering service whose reply never reaches its end. *)
Definition worker_stalled (req : RenderRequest) (b : gmap string string)
    : HttpOutcome * gmap string string :=
  (HttpStalled, b).

Definition env_stalled : Env := make_env "0.4fzyo82mvyr" worker_stalled no_fault.

(** A table whose pages hold a single row. *)
Definition env_small_page : Env :=
  {| request_parser := parse_request;
     JSON_parse_reply := parse_reply;
     toISOString_now := "2024-01-01T00:00:02.000Z";
     Date_now := fun n => 1704067202000 + Z.of_nat n;
     Math_random_36 := "0.4fzyo82mvyr";
     d2_worker := worker_ok;
     presigner := sign;
     sdk_fault := no_fault;
     s3_body_missing := fun _ => false;
     page_rows := fun _ => 1%nat;
     first_rejection := fun _ => 0%nat |}.

(** The row of Alice's later diagram. *)
Definition alice_later_item : Item :=
  new_item env_later "alice" flow_request "diagrams/alice/1704067201000-82mvyr.svg".

End Fixture.

(** * Vocabulary of the properties *)

(** The state after command [a] left the world [w]. *)
Definition logged (a : Action) (w : World) (st : St) : St :=
  {| world := w; trace := trace st ++ [{| action := a; after := w |}] |}.

(** Settle a closed equation by evaluating both sides. *)
Ltac by_evaluation :=
  lazymatch goal with
  | |- @eq ?A ?l ?r => vm_cast_no_check (@eq_refl A r)
  end.

(** Unfold the monad's plumbing, leaving the commands folded. *)
Ltac monad_run :=
  cbv beta iota delta [bind ret throw lift try_catch get_world].

Definition generic_render_error : string :=
  "Diagram rendering failed. Please check your D2 syntax and try again.".

Definition payload_of (d2Text format userId diagramId : string) : RenderRequest :=
  {| r_d2Text := d2Text; r_format := format; r_userId := userId; r_diagramId := diagramId |}.

(** The state the rendering call leaves: the service may have written to
    the bucket, the table is untouched, one command is logged. *)
Definition after_render (env : Env) (payload : RenderRequest) (st : St) : St :=
  logged (CallRender payload)
         {| catalog := catalog (world st);
            blobs := (d2_worker env payload (blobs (world st))).2 |} st.

(** The rendering service answered 200 with a well-formed reply naming
    [key]. *)
Definition replied_key (env : Env) (payload : RenderRequest) (b : gmap string string)
    (key : string) : Prop :=
  ∃ data response,
    (d2_worker env payload b).1 = HttpResponse 200 data ∧
    JSON_parse_reply env data = Some (Some response) ∧
    success response = true ∧
    reply_s3Key response = Some key ∧
    key ≠ EmptyString.

(** The exchange with the rendering service never settles. *)
Definition stalled (env : Env) (payload : RenderRequest) (b : gmap string string) : Prop :=
  (d2_worker env payload b).1 = HttpStalled.

Definition failure (operation message : string) : Response :=
  {| statusCode := 500; response_body := BFailure operation message |}.

Definition bad_request (error : string) : Response :=
  {| statusCode := 400; response_body := BError error |}.

Definition format_of (body : CreateDiagramRequest) : string :=
  if truthy (format body) then default EmptyString (format body) else "svg".

Definition render_of (env : Env) (userId : string) (body : CreateDiagramRequest) : M string :=
  renderD2Diagram env (default EmptyString (d2Text body)) (format_of body)
                  userId (new_diagramId env).

Definition payload_for (env : Env) (userId : string) (body : CreateDiagramRequest)
    : RenderRequest :=
  payload_of (default EmptyString (d2Text body)) (format_of body) userId (new_diagramId env).

(** The steps an operation adds to the trace. *)
Definition extends (st st' : St) (steps : list Step) : Prop :=
  trace st' = (trace st ++ steps)%list.

Definition is_put (s : Step) : Prop :=
  match action s with DdbPut _ => True | _ => False end.

(** The request passes every check that precedes the render step. *)
Definition create_ready (env : Env) (event : Event) (userId : string)
    (body : CreateDiagramRequest) : Prop :=
  getUserId event = Ok userId ∧
  truthy (event_body event) = true ∧
  JSON_parse_request env (default EmptyString (event_body event)) = Ok (Some body) ∧
  truthy (d2Text body) = true ∧
  truthy (req_diagramType body) = true.

Definition created (env : Env) (body : CreateDiagramRequest) (signedUrl svgContent : string)
    : Response :=
  {| statusCode := 201;
     response_body :=
       BCreated (new_diagramId env) (default EmptyString (req_diagramType body))
                (toISOString_now env) signedUrl svgContent
                (Date_now env 2 - Date_now env 1) |}.

(** What Create does once the render step has returned a key. *)
Definition create_tail (env : Env) (userId : string) (body : CreateDiagramRequest)
    (s3Key : string) (st1 : St) : Res Response * St :=
  let item := new_item env userId body s3Key in
  match sdk_fault env (DdbPut item) with
  | Some e =>
      (Ok (failure "Failed to create diagram" e), logged (DdbPut item) (world st1) st1)
  | None =>
      let st2 := logged (DdbPut item) (put_item item (world st1)) st1 in
      match presigner env s3Key with
      | Abrupt e => (Ok (failure "Failed to create diagram" e), st2)
      | Normal signedUrl =>
          match fetchSvgFromS3 env s3Key st2 with
          | (Throw e, st3) => (Ok (failure "Failed to create diagram" e), st3)
          | (Ok svgContent, st3) => (Ok (created env body signedUrl svgContent), st3)
          | (Pending, st3) => (Pending, st3)
          end
      end
  end.

(** The contract the handler relies on: when the rendering service names
    a key in a well-formed 200 reply, it has stored that key. *)
Definition worker_stores_blob (env : Env) : Prop :=
  ∀ payload b key,
    replied_key env payload b key → is_Some ((d2_worker env payload b).2 !! key).

Definition unauthorized_message : string := "Unauthorized: No valid user identity found".

(** The claim set has no usable [sub]: there are no claims, or [sub] is
    missing or empty. *)
Definition lacks_subject (event : Event) : Prop :=
  ∀ c, claims event = Some c → truthy (sub c) = false.

(** Strictly descending sort keys. *)
Definition SK_gt (a b : Item) : Prop := String.le (SK b) (SK a) ∧ SK a ≠ SK b.

Definition not_found : Response :=
  {| statusCode := 404; response_body := BError "Diagram not found" |}.

Definition partition_key (userId : string) : string := "USER#" +:+ userId.

(** The query Get and Delete locate a diagram with. *)
Definition locate_command (userId diagramId : string) : Action :=
  DdbQuery (partition_key userId) (Some diagramId) true.

(** Every row of the caller that carries the id, smallest sort key
    first: the result of that query, all pages together. *)
Definition locate (userId diagramId : string) (w : World) : list Item :=
  run_query (partition_key userId) (Some diagramId) true (catalog w).

(** What the handler receives from that query: the matches among the
    rows of the first page. *)
Definition located (env : Env) (userId diagramId : string) (w : World) : list Item :=
  query_page env (partition_key userId) (Some diagramId) true (catalog w).

Definition deleted : Response :=
  {| statusCode := 200; response_body := BMessage "Diagram deleted successfully" |}.

(** The callback List runs on every row. *)
Definition describe (env : Env) (item : Item) : M DiagramView :=
  let! signedUrl := generateSignedUrl env (s3Key item) in
  let! svgContent := fetchSvgFromS3 env (s3Key item) in
  ret (view_of item signedUrl svgContent).

Definition views_of (items : list Item) (ds : list DiagramView) : Prop :=
  Forall2 (fun it d => ∃ signedUrl svgContent, d = view_of it signedUrl svgContent) items ds.

(** The shape of the rows Create writes: the sort key is built from the
    row's own [createdAt] and [diagramId], and [createdAt] is a
    24-character ISO timestamp ([toISOString] for the years 0 to 9999). *)
Definition written_by_create (sk : string) (a : Attrs) : Prop :=
  sk = "DIAGRAM#" +:+ a_createdAt a +:+ "#" +:+ a_diagramId a ∧
  String.length (a_createdAt a) = 24%nat.

Definition rows_written_by_create (t : gmap (string * string) Attrs) : Prop :=
  ∀ pk sk a, t !! (pk, sk) = Some a → written_by_create sk a.

(** Timestamps never increase along the list. *)
Definition newest_first (ds : list DiagramView) : Prop :=
  StronglySorted (fun a b => String.le (v_createdAt b) (v_createdAt a)) ds.

(** Timestamps strictly decrease along the list. *)
Definition strictly_newest_first (ds : list DiagramView) : Prop :=
  StronglySorted (fun a b => String.le (v_createdAt b) (v_createdAt a) ∧
                             v_createdAt a ≠ v_createdAt b) ds.

(** The caller has no row with this diagram id. *)
Definition absent (userId diagramId : string) (w : World) : Prop :=
  ∀ sk a, catalog w !! (partition_key userId, sk) = Some a → a_diagramId a ≠ diagramId.


(** Two worlds that differ at most in the rows of owner [A]. *)
Definition same_outside (A : string) (w1 w2 : World) : Prop :=
  blobs w1 = blobs w2 ∧
  ∀ pk sk, pk ≠ partition_key A → catalog w1 !! (pk, sk) = catalog w2 !! (pk, sk).



Definition route_not_found : Response :=
  {| statusCode := 404; response_body := BError "Not found" |}.

(** A command that only reads. *)
Definition is_read (a : Action) : Prop :=
  match a with
  | DdbQuery _ _ _ | S3Get _ => True
  | _ => False
  end.

(** The steps are reads that leave the world [w]. *)
Definition reads_only (w : World) (steps : list Step) : Prop :=
  Forall (fun s => is_read (action s) ∧ after s = w) steps.

(** Case analysis on every [match] of the goal. *)
Ltac split_matches :=
  repeat match goal with
         | |- context [match ?x with _ => _ end] => destruct x
         end.


(** Row [it] can be shown as [d] in the world [w]: its URL can be signed
    and its content fetched. *)
Definition shown (env : Env) (w : World) (it : Item) (d : DiagramView) : Prop :=
  ∃ signedUrl svgContent,
    getSignedUrl env (s3Key it) = Ok signedUrl ∧
    blobs w !! s3Key it = Some svgContent ∧
    sdk_fault env (S3Get (s3Key it)) = None ∧
    s3_body_missing env (s3Key it) = false ∧
    d = view_of it signedUrl svgContent.

(** The query List runs. *)
Definition list_command (userId : string) : Action :=
  DdbQuery (partition_key userId) None false.

(** Every row of the caller, greatest sort key first: the result of
    that query, all pages together. *)
Definition listed (userId : string) (w : World) : list Item :=
  run_query (partition_key userId) None false (catalog w).

(** What the handler receives from that query: the first page of the
    partition, greatest sort key first. *)
Definition listed_page (env : Env) (userId : string) (w : World) : list Item :=
  query_page env (partition_key userId) None false (catalog w).

(** The partition fits in the page of a query in the given direction. *)
Definition fits_page (env : Env) (pk : string) (forward : bool)
    (t : gmap (string * string) Attrs) : Prop :=
  (length (partition_of pk t)
   ≤ page_rows env (if forward then partition_of pk t else reverse (partition_of pk t)))%nat.

Definition fetch_error : string := "Failed to fetch diagram content from S3".

(** What the callback of List makes of row [it] in the world [w]: the
    entry, or the failure of the signing or of the fetch. *)
Definition described (env : Env) (w : World) (it : Item) : Res DiagramView :=
  match presigner env (s3Key it) with
  | Abrupt e => Throw e
  | Normal signedUrl =>
      match blobs w !! s3Key it with
      | Some content =>
          match sdk_fault env (S3Get (s3Key it)) with
          | Some _ => Throw fetch_error
          | None => if s3_body_missing env (s3Key it) then Throw fetch_error
                    else Ok (view_of it signedUrl content)
          end
      | None => Throw fetch_error
      end
  end.

(** What List answers once the query has returned [items]. *)
Definition list_outcome (env : Env) (w : World) (items : list Item) : Res Response :=
  match promise_all env (described env w <$> items) with
  | Ok ds => Ok {| statusCode := 200; response_body := BDiagrams ds |}
  | Throw e => Ok (failure "Failed to list diagrams" e)
  | Pending => Pending
  end.

(** Strictly ascending sort keys. *)
Definition SK_lt (a b : Item) : Prop := String.le (SK a) (SK b) ∧ SK a ≠ SK b.

(** Row [it] belongs to [userId] and carries the diagram id [wanted]. *)
Definition matches (userId wanted : string) (w : World) (it : Item) : Prop :=
  PK it = partition_key userId ∧
  catalog w !! (PK it, SK it) = Some (attrs_of it) ∧
  diagramId it = wanted.

(** A well-formed row: a non-empty owner in the partition key, the sort
    key built from the row's own timestamp and id, and no empty id, type
    or content key. *)
Definition row_well_formed (k : string * string) (a : Attrs) : Prop :=
  (∃ userId, userId ≠ EmptyString ∧ k.1 = partition_key userId) ∧
  k.2 = "DIAGRAM#" +:+ a_createdAt a +:+ "#" +:+ a_diagramId a ∧
  a_diagramId a ≠ EmptyString ∧
  a_diagramType a ≠ EmptyString ∧
  a_s3Key a ≠ EmptyString.

Definition table_well_formed (t : gmap (string * string) Attrs) : Prop :=
  ∀ k a, t !! k = Some a → row_well_formed k a.

(** Requests served one after the other, each in the environment it
    meets. *)
Fixpoint serve (requests : list (Env * Event)) (st : St) : St :=
  match requests with
  | [] => st
  | (env, event) :: rest => serve rest (handler env event st).2
  end.

(** The JSON values JavaScript takes for false. *)
Definition falsy_values : list json := [JNull; JBool false; JNum 0; JStr EmptyString].

(** The first rows of the caller's partition, oldest first: what a query
    in ascending order reads before it filters. *)
Definition first_rows (env : Env) (userId : string) (w : World) : list Item :=
  take (page_rows env (partition_of (partition_key userId) (catalog w)))
       (partition_of (partition_key userId) (catalog w)).

(** The text [renderD2Diagram] looks for before it tries to extract a
    diagnostic. *)
Definition status_500_marker : string := "D2 service returned status 500".

(** No character of [s] is a double quote. *)
Definition quote_free (s : string) : Prop :=
  Forall (fun c => c ≠ dquote) (list_ascii_of_string s).

(** * Properties *)

(** ** Single commands *)

Lemma completed_settles {A} (c : Completion A) : completed c ≠ Pending.
Proof. by destruct c. Qed.

Lemma getSignedUrl_settles env key : getSignedUrl env key ≠ Pending.
Proof. apply completed_settles. Qed.

Lemma JSON_parse_request_settles env s : JSON_parse_request env s ≠ Pending.
Proof. apply completed_settles. Qed.

Lemma getUserId_settles event : getUserId event ≠ Pending.
Proof. unfold getUserId. destruct (claims event) as [c|]; [|done]. by destruct (negb _). Qed.

Lemma getSignedUrl_Ok env key url : getSignedUrl env key = Ok url ↔ presigner env key = Normal url.
Proof. unfold getSignedUrl. destruct (presigner env key); simpl; split; congruence. Qed.

Lemma getSignedUrl_Throw env key e : getSignedUrl env key = Throw e ↔ presigner env key = Abrupt e.
Proof. unfold getSignedUrl. destruct (presigner env key); simpl; split; congruence. Qed.

Lemma sdk_send_run a fault effect st :
  sdk_send a fault effect st =
    match fault with
    | Some e => (Throw e, logged a (world st) st)
    | None => (Ok tt, logged a (effect (world st)) st)
    end.
Proof. destruct fault; reflexivity. Qed.

Lemma ddb_query_run env pk flt fwd st :
  ddb_query env pk flt fwd st =
    match sdk_fault env (DdbQuery pk flt fwd) with
    | Some e => (Throw e, logged (DdbQuery pk flt fwd) (world st) st)
    | None => (Ok (query_page env pk flt fwd (catalog (world st))),
               logged (DdbQuery pk flt fwd) (world st) st)
    end.
Proof.
  unfold ddb_query. monad_run. rewrite sdk_send_run.
  destruct (sdk_fault env _); reflexivity.
Qed.

Lemma fetchSvgFromS3_run env key st :
  fetchSvgFromS3 env key st =
    (match blobs (world st) !! key with
     | Some content =>
         match sdk_fault env (S3Get key) with
         | Some _ => Throw "Failed to fetch diagram content from S3"
         | None => if s3_body_missing env key
                   then Throw "Failed to fetch diagram content from S3"
                   else Ok content
         end
     | None => Throw "Failed to fetch diagram content from S3"
     end, logged (S3Get key) (world st) st).
Proof.
  unfold fetchSvgFromS3, s3_get. monad_run.
  destruct (blobs (world st) !! key) eqn:Hb; monad_run; rewrite sdk_send_run.
  - destruct (sdk_fault env (S3Get key)); [reflexivity|].
    destruct (s3_body_missing env key); reflexivity.
  - reflexivity.
Qed.

(** ** The render step *)

Lemma truthy_Some o : truthy o = true → ∃ s, o = Some s ∧ s ≠ EmptyString.
Proof. destruct o as [[|c s]|]; simpl; try discriminate. intros _. by eexists. Qed.

Lemma truthy_default o : truthy o = true → o = Some (default EmptyString o).
Proof. intros (s & -> & _)%truthy_Some. reflexivity. Qed.

Lemma callD2Service_run env d f u i st :
  ∃ r, callD2Service env d f u i st = (r, after_render env (payload_of d f u i) st) ∧
       ((∃ e, r = Throw e) ∨
        (∃ key, r = Ok key ∧ replied_key env (payload_of d f u i) (blobs (world st)) key) ∨
        (r = Pending ∧ stalled env (payload_of d f u i) (blobs (world st)))).
Proof.
  unfold callD2Service, after_render, replied_key, stalled, bind, get_world, record_step,
    payload_of, logged.
  simpl. destruct (d2_worker env _ (blobs (world st))) as [outcome b'] eqn:Hw. simpl.
  destruct outcome as [e| |code data|]; simpl;
    try (eexists; split; [reflexivity|left; by eexists]);
    [|eexists; split; [reflexivity|right; right; done]].
  destruct (Z.eqb_spec code 200) as [->|Hne];
    [|eexists; split; [reflexivity|left; by eexists]].
  destruct (JSON_parse_reply env data) as [[response|]|] eqn:Hp;
    try (eexists; split; [reflexivity|left; by eexists]).
  destruct (success response) eqn:Hs; simpl;
    [|eexists; split; [reflexivity|left; by eexists]].
  destruct (truthy (reply_s3Key response)) eqn:Ht;
    [|eexists; split; [reflexivity|left; by eexists]].
  eexists; split; [reflexivity|right; left].
  destruct (truthy_Some _ Ht) as (k & Hk & Hne). rewrite Hk. simpl.
  exists k. split; [reflexivity|]. exists data, response. done.
Qed.

(** Whatever goes wrong in the rendering call, [renderD2Diagram] throws
    the same generic error: the diagnostic it extracts is thrown inside
    the inner [try] and caught by the inner [catch].  When the exchange
    never settles, neither does [renderD2Diagram]. *)
Lemma renderD2Diagram_run env d f u i st :
  ∃ r, renderD2Diagram env d f u i st = (r, after_render env (payload_of d f u i) st) ∧
       (r = Throw generic_render_error ∨
        (∃ key, r = Ok key ∧ replied_key env (payload_of d f u i) (blobs (world st)) key) ∨
        (r = Pending ∧ stalled env (payload_of d f u i) (blobs (world st)))).
Proof.
  destruct (callD2Service_run env d f u i st) as (r & Hrun & Hr).
  unfold renderD2Diagram, try_catch, bind. rewrite Hrun.
  destruct Hr as [[e ->]|[(key & -> & Hkey)|[-> Hstall]]].
  - exists (Throw generic_render_error). split; [|by left].
    destruct (includes _ e); [|reflexivity].
    destruct (match_message e); reflexivity.
  - exists (Ok key). split; [reflexivity|right; left]. by exists key.
  - exists Pending. split; [reflexivity|right; right; done].
Qed.

(** ** Create, step by step *)

Lemma createDiagram_unfold env event st :
  createDiagram env event st =
    match getUserId event with
    | Pending => (Pending, st)
    | Throw e => (Ok (failure "Failed to create diagram" e), st)
    | Ok userId =>
        if negb (truthy (event_body event)) then
          (Ok (bad_request "Missing request body"), st)
        else
          match JSON_parse_request env (default EmptyString (event_body event)) with
          | Pending => (Pending, st)
          | Throw e => (Ok (failure "Failed to create diagram" e), st)
          | Ok None =>
              (Ok (failure "Failed to create diagram"
                     "Cannot read properties of null (reading 'd2Text')"), st)
          | Ok (Some body) =>
              if negb (truthy (d2Text body)) || negb (truthy (req_diagramType body)) then
                (Ok (bad_request "Missing required fields: d2Text, diagramType"), st)
              else
                match render_of env userId body st with
                | (Pending, st1) => (Pending, st1)
                | (Throw e, st1) => (Ok (failure "Failed to create diagram" e), st1)
                | (Ok s3Key, st1) =>
                    let item := new_item env userId body s3Key in
                    match sdk_fault env (DdbPut item) with
                    | Some e =>
                        (Ok (failure "Failed to create diagram" e),
                         logged (DdbPut item) (world st1) st1)
                    | None =>
                        let st2 := logged (DdbPut item) (put_item item (world st1)) st1 in
                        match presigner env s3Key with
                        | Abrupt e => (Ok (failure "Failed to create diagram" e), st2)
                        | Normal signedUrl =>
                            match fetchSvgFromS3 env s3Key st2 with
                            | (Pending, st3) => (Pending, st3)
                            | (Throw e, st3) =>
                                (Ok (failure "Failed to create diagram" e), st3)
                            | (Ok svgContent, st3) =>
                                (Ok {| statusCode := 201;
                                       response_body :=
                                         BCreated (new_diagramId env)
                                           (default EmptyString (req_diagramType body))
                                           (toISOString_now env) signedUrl svgContent
                                           (Date_now env 2 - Date_now env 1) |}, st3)
                            end
                        end
                    end
                end
          end
    end.
Proof.
  unfold createDiagram, render_of, ddb_put, generateSignedUrl, getSignedUrl. monad_run.
  destruct (getUserId event) as [userId|e|]; [|reflexivity..].
  destruct (negb (truthy (event_body event))); [reflexivity|].
  destruct (JSON_parse_request env _) as [[body|]|e|]; try reflexivity.
  destruct (negb (truthy (d2Text body)) || negb (truthy (req_diagramType body)));
    [reflexivity|]. monad_run.
  destruct (renderD2Diagram env _ _ userId _ st) as [[s3Key|e|] st1]; [|reflexivity..].
  rewrite sdk_send_run.
  destruct (sdk_fault env _); [reflexivity|]. cbv zeta.
  destruct (presigner env s3Key); [|reflexivity]. simpl.
  destruct (fetchSvgFromS3 env s3Key _) as [[svg|e|] st3]; reflexivity.
Qed.

Lemma render_of_run env userId body st :
  ∃ r, render_of env userId body st = (r, after_render env (payload_for env userId body) st) ∧
       (r = Throw generic_render_error ∨
        (∃ key, r = Ok key ∧
                replied_key env (payload_for env userId body) (blobs (world st)) key) ∨
        (r = Pending ∧ stalled env (payload_for env userId body) (blobs (world st)))).
Proof. apply renderD2Diagram_run. Qed.

Lemma createDiagram_ready env event st userId body :
  create_ready env event userId body →
  createDiagram env event st =
    match render_of env userId body st with
    | (Pending, st1) => (Pending, st1)
    | (Throw e, st1) => (Ok (failure "Failed to create diagram" e), st1)
    | (Ok s3Key, st1) => create_tail env userId body s3Key st1
    end.
Proof.
  intros (Hu & Hb & Hp & Hd & Ht). rewrite createDiagram_unfold, Hu, Hb, Hp, Hd, Ht.
  reflexivity.
Qed.

Lemma createDiagram_not_ready env event st :
  (∀ userId body, ¬ create_ready env event userId body) →
  ∃ response, createDiagram env event st = (Ok response, st) ∧
              (statusCode response = 400 ∨ statusCode response = 500).
Proof.
  intros Hnot. rewrite createDiagram_unfold.
  destruct (getUserId event) as [userId|e|] eqn:Hu;
    [|eexists; split; [reflexivity|by right]|by apply getUserId_settles in Hu].
  destruct (truthy (event_body event)) eqn:Hb; [|eexists; split; [reflexivity|by left]].
  simpl.
  destruct (JSON_parse_request env _) as [[body|]|e|] eqn:Hp;
    try (eexists; split; [reflexivity|by right]);
    [|by apply JSON_parse_request_settles in Hp].
  destruct (truthy (d2Text body)) eqn:Hd; [|eexists; split; [reflexivity|by left]].
  destruct (truthy (req_diagramType body)) eqn:Ht; [|eexists; split; [reflexivity|by left]].
  exfalso. apply (Hnot userId body). by repeat split.
Qed.

Lemma create_ready_dec env event :
  (∃ userId body, create_ready env event userId body) ∨
  (∀ userId body, ¬ create_ready env event userId body).
Proof.
  unfold create_ready.
  destruct (getUserId event) as [userId|e|] eqn:Hu;
    [|right; intros ? ? (? & _); congruence..].
  destruct (truthy (event_body event)) eqn:Hb; [|right; intros ? ? (_ & ? & _); congruence].
  destruct (JSON_parse_request env _) as [[body|]|e|] eqn:Hp;
    try (right; intros ? ? (_ & _ & ? & _); congruence).
  destruct (truthy (d2Text body)) eqn:Hd;
    [|right; intros ? ? (_ & _ & ? & ? & _); congruence].
  destruct (truthy (req_diagramType body)) eqn:Ht;
    [|right; intros ? ? (_ & _ & ? & _ & ?); congruence].
  left. by exists userId, body.
Qed.

Lemma create_ready_unique env event u1 b1 u2 b2 :
  create_ready env event u1 b1 → create_ready env event u2 b2 → u1 = u2 ∧ b1 = b2.
Proof. intros (? & _ & ? & _) (? & _ & ? & _). split; congruence. Qed.

(** The tail adds the put and at most one read; it changes nothing but
    the row it writes. *)
Lemma create_tail_run env userId body key st1 res st' :
  create_tail env userId body key st1 = (res, st') →
  let item := new_item env userId body key in
  ∃ w rest,
    trace st' = (trace st1 ++ {| action := DdbPut item; after := w |} :: rest)%list ∧
    (rest = [] ∨ rest = [{| action := S3Get key; after := w |}]) ∧
    world st' = w ∧
    ((∃ e, sdk_fault env (DdbPut item) = Some e ∧ w = world st1 ∧
           res = Ok (failure "Failed to create diagram" e)) ∨
     (sdk_fault env (DdbPut item) = None ∧ w = put_item item (world st1))).
Proof.
  intros Hrun item. unfold create_tail in Hrun. fold item in Hrun.
  destruct (sdk_fault env (DdbPut item)) as [e|] eqn:Hf.
  - inversion Hrun; subst. exists (world st1), []. simpl.
    split; [reflexivity|]. split; [by left|]. split; [reflexivity|]. left. by exists e.
  - cbv zeta in Hrun. rewrite fetchSvgFromS3_run in Hrun.
    exists (put_item item (world st1)).
    destruct (presigner env key) as [url|e].
    + exists [{| action := S3Get key; after := put_item item (world st1) |}].
      assert (st' = logged (S3Get key) (put_item item (world st1))
                      (logged (DdbPut item) (put_item item (world st1)) st1)) as ->.
      { simpl in Hrun. destruct (blobs (world st1) !! key); [|by inversion Hrun].
        destruct (sdk_fault env (S3Get key)); [by inversion Hrun|].
        destruct (s3_body_missing env key); by inversion Hrun. }
      simpl. rewrite <- app_assoc. simpl. repeat split; auto.
    + exists []. inversion Hrun; subst. simpl. repeat split; auto.
Qed.

(** ** Create: claims *)

(** C1 (the code at the failing input).  The rendering service answers
    500 with a body whose message field is the diagnostic
    [unexpected token].  The pattern of [renderD2Diagram] does extract
    the diagnostic, but the error built from it is thrown and caught
    inside the same function: Create answers 500 with the generic
    rendering message, which does not contain the diagnostic.  No row is
    written. *)
Theorem create_render_500_loses_diagnostic :
  let run := createDiagram Fixture.env_500 (Fixture.create_by "alice") Fixture.st0 in
  match_message ("D2 service returned status 500: "
                 +:+ Fixture.diagnostic_data "unexpected token")
    = Some "unexpected token" ∧
  run.1 = Ok (failure "Failed to create diagram" generic_render_error) ∧
  includes "unexpected token" generic_render_error = false ∧
  catalog (world run.2) = catalog (world Fixture.st0) ∧
  map action (trace run.2) =
    [CallRender (payload_of "x->y" "svg" "alice" "1704067200000-82mvyr")].
Proof. vm_compute. repeat split; reflexivity. Qed.

(** C5.  For a caller whose identity is resolved: when the request has
    no body, or its body has an empty or missing [d2Text] or a missing
    [diagramType], Create answers 400 and leaves the state as it was:
    table, bucket and trace are unchanged, so neither the rendering call
    nor the table write was made. *)
Theorem create_missing_field_400 env event st userId :
  getUserId event = Ok userId →
  (truthy (event_body event) = false ∨
   ∃ body, JSON_parse_request env (default EmptyString (event_body event)) = Ok (Some body) ∧
           (truthy (d2Text body) = false ∨ truthy (req_diagramType body) = false)) →
  ∃ error, createDiagram env event st =
             (Ok {| statusCode := 400; response_body := BError error |}, st).
Proof.
  intros Hu Hcase. rewrite createDiagram_unfold, Hu.
  destruct Hcase as [Hb|(body & Hp & Hf)].
  - rewrite Hb. by eexists.
  - destruct (truthy (event_body event)); [|by eexists]. simpl. rewrite Hp.
    destruct Hf as [-> | ->]; simpl; [by eexists|].
    rewrite orb_true_r. by eexists.
Qed.

Lemma create_missing_field_400_witness :
  ∃ error, createDiagram Fixture.env_ok (Fixture.create_empty_by "alice") Fixture.st1 =
             (Ok {| statusCode := 400; response_body := BError error |}, Fixture.st1).
Proof.
  apply (create_missing_field_400 Fixture.env_ok (Fixture.create_empty_by "alice")
           Fixture.st1 "alice").
  - reflexivity.
  - right. exists Fixture.empty_source_request. split; [reflexivity|]. left. reflexivity.
Defined.

Lemma after_render_extends env payload st :
  extends st (after_render env payload st)
          [{| action := CallRender payload; after := world (after_render env payload st) |}].
Proof. reflexivity. Qed.

(** C2.  In every run of Create: (1) when the render step throws, for
    whatever reason, Create answers 500 with that error, stops there and
    the table is as it was, with no put among the commands issued;
    (2) a put is only ever the second command, right after a render step
    that returned the key the row stores, and under the contract of the
    rendering service that key is in the bucket when the row is written;
    (3) without a put the table is unchanged. *)
Theorem create_put_only_after_render env event st res st' :
  createDiagram env event st = (res, st') →
  ∃ steps, extends st st' steps ∧
    (∀ userId body e st1,
       create_ready env event userId body →
       render_of env userId body st = (Throw e, st1) →
       res = Ok (failure "Failed to create diagram" e) ∧ st' = st1 ∧
       catalog (world st') = catalog (world st) ∧
       Forall (fun s => ¬ is_put s) steps) ∧
    (∀ i it w,
       steps !! i = Some {| action := DdbPut it; after := w |} →
       ∃ userId body st1,
         create_ready env event userId body ∧
         render_of env userId body st = (Ok (s3Key it), st1) ∧
         it = new_item env userId body (s3Key it) ∧
         i = 1%nat ∧
         extends st st1 (take 1 steps) ∧
         (worker_stores_blob env →
          is_Some (blobs (world st1) !! s3Key it) ∧ is_Some (blobs w !! s3Key it))) ∧
    (Forall (fun s => ¬ is_put s) steps → catalog (world st') = catalog (world st)).
Proof.
  intros Hrun.
  destruct (create_ready_dec env event) as [(userId & body & Hready)|Hnot].
  - rewrite (createDiagram_ready _ _ _ _ _ Hready) in Hrun.
    destruct (render_of_run env userId body st) as (r & Hrender & Hr).
    rewrite Hrender in Hrun.
    destruct Hr as [->|[(key & -> & Hkey)|[-> _]]]; cycle 2.
    + inversion Hrun; subst res st'. eexists. split; [apply after_render_extends|].
      split; [|split].
      * intros u b e st1 Hready' Hr'.
        destruct (create_ready_unique _ _ _ _ _ _ Hready Hready') as [<- <-].
        rewrite Hrender in Hr'. discriminate.
      * intros [|[|i]] it w Hi; simpl in Hi; discriminate.
      * reflexivity.
    + inversion Hrun; subst res st'. eexists. split; [apply after_render_extends|].
      split; [|split].
      * intros u b e st1 Hready' Hr'.
        destruct (create_ready_unique _ _ _ _ _ _ Hready Hready') as [<- <-].
        rewrite Hrender in Hr'. inversion Hr'; subst.
        repeat split; auto.
      * intros [|[|i]] it w Hi; simpl in Hi; discriminate.
      * reflexivity.
    + destruct (create_tail_run _ _ _ _ _ _ _ Hrun) as (w & rest & Htrace & Hrest & Hw & Hput).
      exists ({| action := CallRender (payload_for env userId body);
                 after := world (after_render env (payload_for env userId body) st) |}
              :: {| action := DdbPut (new_item env userId body key); after := w |} :: rest).
      split; [|split; [|split]].
      * unfold extends. rewrite Htrace. simpl. rewrite <- app_assoc. reflexivity.
      * intros u b e st1 Hready' Hr'.
        destruct (create_ready_unique _ _ _ _ _ _ Hready Hready') as [<- <-].
        rewrite Hrender in Hr'. discriminate.
      * intros i it w' Hi.
        assert (i = 1%nat ∧ it = new_item env userId body key ∧ w' = w) as (-> & -> & ->).
        { destruct i as [|[|i]]; simpl in Hi.
          - discriminate.
          - by inversion Hi.
          - destruct Hrest as [->| ->]; [discriminate|].
            destruct i; simpl in Hi; discriminate. }
        exists userId, body, (after_render env (payload_for env userId body) st).
        simpl. split; [exact Hready|]. split; [exact Hrender|].
        split; [reflexivity|]. split; [reflexivity|]. split; [reflexivity|].
        intros Hcontract. split; [apply (Hcontract _ _ _ Hkey)|].
        destruct Hput as [(e & _ & -> & _)|(_ & ->)]; simpl; apply (Hcontract _ _ _ Hkey).
      * intros Hno. inversion Hno as [|? ? _ Hno']; subst.
        inversion Hno' as [|? ? Hp _]; subst. exfalso. apply Hp. exact I.
  - destruct (createDiagram_not_ready env event st Hnot) as (response & Heq & _).
    rewrite Heq in Hrun. inversion Hrun; subst. exists []. split; [|split; [|split]].
    + unfold extends. by rewrite app_nil_r.
    + intros u b e st1 Hready _. exfalso. exact (Hnot u b Hready).
    + intros i it w Hi. destruct i; discriminate.
    + reflexivity.
Qed.

Lemma worker_ok_stores_blob : worker_stores_blob Fixture.env_ok.
Proof.
  intros payload b key (data & response & Hw & Hp & Hs & Hk & Hne).
  simpl in *. inversion Hw; subst data. unfold Fixture.parse_reply in Hp.
  simpl in Hp. inversion Hp; subst response. simpl in Hk. inversion Hk; subst key.
  rewrite lookup_insert_eq. by eexists.
Defined.

Lemma create_put_only_after_render_witness :
  is_Some (blobs (world Fixture.st1) !! s3Key Fixture.alice_item).
Proof.
  destruct (create_put_only_after_render Fixture.env_ok (Fixture.create_by "alice")
              Fixture.st0
              (createDiagram Fixture.env_ok (Fixture.create_by "alice") Fixture.st0).1
              Fixture.st1)
    as (steps & Hext & _ & Hput & _).
  - by_evaluation.
  - assert (steps = trace Fixture.st1) as -> by (symmetry; exact Hext).
    destruct (Hput 1%nat Fixture.alice_item (world Fixture.st1))
      as (userId & body & st1 & _ & _ & _ & _ & _ & Hblob).
    + by_evaluation.
    + apply Hblob, worker_ok_stores_blob.
Defined.

(** The only change Create makes to the table is the row it puts. *)
Lemma createDiagram_writes env event st res st' :
  createDiagram env event st = (res, st') →
  catalog (world st') = catalog (world st) ∨
  ∃ userId body key,
    create_ready env event userId body ∧
    catalog (world st') = catalog (put_item (new_item env userId body key) (world st)).
Proof.
  intros Hrun.
  destruct (create_ready_dec env event) as [(userId & body & Hready)|Hnot].
  - rewrite (createDiagram_ready _ _ _ _ _ Hready) in Hrun.
    destruct (render_of_run env userId body st) as (r & Hrender & Hr).
    rewrite Hrender in Hrun.
    destruct Hr as [->|[(key & -> & Hkey)|[-> _]]].
    + inversion Hrun; subst. by left.
    + destruct (create_tail_run _ _ _ _ _ _ _ Hrun) as (w & rest & _ & _ & Hw & Hput).
      rewrite Hw. destruct Hput as [(e & _ & -> & _)|(_ & ->)]; [by left|].
      right. by exists userId, body, key.
    + inversion Hrun; subst. by left.
  - destruct (createDiagram_not_ready env event st Hnot) as (response & Heq & _).
    rewrite Heq in Hrun. inversion Hrun; subst. by left.
Qed.

(** C4 as stated fails: the partition key of the row Create writes for
    the caller [alice] starts with [USER#], not with [OWNER#]. *)
Lemma create_row_partition_key_is_not_OWNER :
  ¬ (∀ env event st res st',
       createDiagram env event st = (res, st') →
       catalog (world st') = catalog (world st) ∨
       ∃ userId it,
         getUserId event = Ok userId ∧
         catalog (world st') = <[(PK it, SK it) := attrs_of it]> (catalog (world st)) ∧
         PK it = "OWNER#" +:+ userId ∧
         SK it = "DIAGRAM#" +:+ createdAt it +:+ "#" +:+ diagramId it).
Proof.
  intros Hclaim.
  assert (catalog (world Fixture.st1) !! (PK Fixture.alice_item, SK Fixture.alice_item)
          = Some (attrs_of Fixture.alice_item)) as Hrow by by_evaluation.
  destruct (Hclaim Fixture.env_ok (Fixture.create_by "alice") Fixture.st0
              (createDiagram Fixture.env_ok (Fixture.create_by "alice") Fixture.st0).1
              Fixture.st1)
    as [Hsame|(userId & it & Hu & Hcat & Hpk & _)].
  - by_evaluation.
  - rewrite Hsame in Hrow. cbn [Fixture.st0 world catalog] in Hrow.
    by rewrite lookup_empty in Hrow.
  - rewrite Hcat in Hrow. cbn [Fixture.st0 world catalog] in Hrow.
    apply lookup_insert_Some in Hrow as [[Hkey _]|[_ Ha]].
    + inversion Hu; subst userId. rewrite Hpk in Hkey. simpl in Hkey. discriminate.
    + by rewrite lookup_empty in Ha.
Qed.

(** C4 (amended).  A run of Create either leaves the table as it was or
    writes exactly one row, whose partition key is [USER#] followed by
    the caller's id and whose sort key is [DIAGRAM#], the row's
    [createdAt], [#] and the row's [diagramId]. *)
Theorem create_row_keys env event st res st' :
  createDiagram env event st = (res, st') →
  catalog (world st') = catalog (world st) ∨
  ∃ userId it,
    getUserId event = Ok userId ∧
    catalog (world st') = <[(PK it, SK it) := attrs_of it]> (catalog (world st)) ∧
    PK it = "USER#" +:+ userId ∧
    SK it = "DIAGRAM#" +:+ createdAt it +:+ "#" +:+ diagramId it ∧
    createdAt it = toISOString_now env ∧
    diagramId it = new_diagramId env.
Proof.
  intros Hrun.
  destruct (createDiagram_writes _ _ _ _ _ Hrun)
    as [Hsame|(userId & body & key & (Hu & _) & Hcat)]; [by left|].
  right. exists userId, (new_item env userId body key). by repeat split.
Qed.

Lemma create_row_keys_witness :
  catalog (world Fixture.st1) = catalog (world Fixture.st0) ∨
  ∃ userId it,
    getUserId (Fixture.create_by "alice") = Ok userId ∧
    catalog (world Fixture.st1)
      = <[(PK it, SK it) := attrs_of it]> (catalog (world Fixture.st0)) ∧
    PK it = "USER#" +:+ userId ∧
    SK it = "DIAGRAM#" +:+ createdAt it +:+ "#" +:+ diagramId it ∧
    createdAt it = toISOString_now Fixture.env_ok ∧
    diagramId it = new_diagramId Fixture.env_ok.
Proof.
  apply (create_row_keys Fixture.env_ok (Fixture.create_by "alice") Fixture.st0
           (createDiagram Fixture.env_ok (Fixture.create_by "alice") Fixture.st0).1).
  by_evaluation.
Defined.

(** C10.  When the render step returned a key and the put succeeded, but
    the signed URL cannot be issued or the content cannot be fetched,
    Create answers 500 although the row it wrote is in the table and the
    bucket still holds whatever it held after the render: an error
    response from Create does not mean that no diagram was created. *)
Theorem create_error_after_row_written env event st userId body key st1 :
  create_ready env event userId body →
  render_of env userId body st = (Ok key, st1) →
  sdk_fault env (DdbPut (new_item env userId body key)) = None →
  ((∃ e, getSignedUrl env key = Throw e) ∨
   is_Some (sdk_fault env (S3Get key)) ∨
   s3_body_missing env key = true ∨
   blobs (world st1) !! key = None) →
  ∃ message st',
    createDiagram env event st =
      (Ok {| statusCode := 500;
             response_body := BFailure "Failed to create diagram" message |}, st') ∧
    catalog (world st') !! (PK (new_item env userId body key), SK (new_item env userId body key))
      = Some (attrs_of (new_item env userId body key)) ∧
    blobs (world st') = blobs (world st1).
Proof.
  intros Hready Hrender Hput Hlater.
  rewrite (createDiagram_ready _ _ _ _ _ Hready), Hrender.
  unfold create_tail. rewrite Hput. cbv zeta. rewrite fetchSvgFromS3_run.
  destruct (presigner env key) as [url|e] eqn:Hsign.
  - assert (∃ m, match blobs (world (logged (DdbPut (new_item env userId body key))
                         (put_item (new_item env userId body key) (world st1)) st1)) !! key with
                 | Some content =>
                     match sdk_fault env (S3Get key) with
                     | Some _ => Throw "Failed to fetch diagram content from S3"
                     | None => if s3_body_missing env key
                               then Throw "Failed to fetch diagram content from S3"
                               else Ok content
                     end
                 | None => Throw "Failed to fetch diagram content from S3"
                 end = Throw m) as (m & ->).
    { simpl. destruct Hlater as [(e & He)|[[e He]|[Hm|Hb]]].
      - apply getSignedUrl_Throw in He. congruence.
      - rewrite He. destruct (blobs (world st1) !! key); by eexists.
      - rewrite Hm. destruct (blobs (world st1) !! key); [|by eexists].
        destruct (sdk_fault env (S3Get key)); by eexists.
      - rewrite Hb. by eexists. }
    exists m. eexists. split; [reflexivity|]. simpl.
    split; [apply lookup_insert_eq|reflexivity].
  - exists e. eexists. split; [reflexivity|]. simpl.
    split; [apply lookup_insert_eq|reflexivity].
Qed.

Lemma create_error_after_row_written_witness :
  ∃ message st',
    createDiagram Fixture.env_fetch_fault (Fixture.create_by "alice") Fixture.st0 =
      (Ok {| statusCode := 500;
             response_body := BFailure "Failed to create diagram" message |}, st') ∧
    catalog (world st') !! (PK Fixture.alice_item, SK Fixture.alice_item)
      = Some (attrs_of Fixture.alice_item) ∧
    blobs (world st') !! Fixture.alice_key = Some "<svg/>".
Proof.
  destruct (create_error_after_row_written Fixture.env_fetch_fault
              (Fixture.create_by "alice") Fixture.st0 "alice" Fixture.flow_request
              Fixture.alice_key
              (render_of Fixture.env_fetch_fault "alice" Fixture.flow_request Fixture.st0).2)
    as (message & st' & Hrun & Hrow & Hblobs).
  - repeat split; reflexivity.
  - by_evaluation.
  - reflexivity.
  - right. left. by eexists.
  - exists message, st'. split; [exact Hrun|]. split; [exact Hrow|].
    rewrite Hblobs. by_evaluation.
Defined.

(** ** Identity *)

Lemma getUserId_lacks_subject event :
  lacks_subject event → getUserId event = Throw unauthorized_message.
Proof.
  unfold lacks_subject, getUserId. intros H.
  destruct (claims event) as [c|]; [|reflexivity]. by rewrite (H c eq_refl).
Qed.

(** C3 as stated fails: for a request whose claims carry no [sub], each
    of the four operations answers 500, not 401. *)
Lemma unauthorized_status_is_not_401 :
  claims (Fixture.anonymous "POST" "/diagrams") = Some {| sub := None |} ∧
  ∀ operation,
    operation ∈ [createDiagram; listDiagrams; getDiagram; deleteDiagram] →
    ∃ response,
      (operation Fixture.env_ok (Fixture.anonymous "POST" "/diagrams") Fixture.st0).1
        = Ok response ∧
      statusCode response = 500 ∧ statusCode response ≠ 401.
Proof.
  split; [reflexivity|]. intros operation Hin.
  repeat (apply elem_of_cons in Hin as [->|Hin]);
    [eexists; split; [vm_compute; reflexivity|split; [reflexivity|discriminate]]..|].
  by apply elem_of_nil in Hin.
Qed.

(** C3 (amended).  For a request whose claim set has no usable [sub],
    each of Create, List, Get and Delete answers 500 with the operation's
    failure label and the message [Unauthorized: No valid user identity
    found], without any external call and without changing the state;
    the entry point [handler] answers the same on the four routes (and
    404 on any other route). *)
Theorem unauthorized_is_500 env event st :
  lacks_subject event →
  createDiagram env event st = (Ok (failure "Failed to create diagram" unauthorized_message), st) ∧
  listDiagrams env event st = (Ok (failure "Failed to list diagrams" unauthorized_message), st) ∧
  getDiagram env event st = (Ok (failure "Failed to get diagram" unauthorized_message), st) ∧
  deleteDiagram env event st = (Ok (failure "Failed to delete diagram" unauthorized_message), st) ∧
  ∃ response, handler env event st = (Ok response, st) ∧
              (statusCode response = 500 ∨ response = {| statusCode := 404;
                                                        response_body := BError "Not found" |}).
Proof.
  intros Hu%getUserId_lacks_subject.
  assert (createDiagram env event st
          = (Ok (failure "Failed to create diagram" unauthorized_message), st)) as Hc
    by (unfold createDiagram; monad_run; by rewrite Hu).
  assert (listDiagrams env event st
          = (Ok (failure "Failed to list diagrams" unauthorized_message), st)) as Hl
    by (unfold listDiagrams; monad_run; by rewrite Hu).
  assert (getDiagram env event st
          = (Ok (failure "Failed to get diagram" unauthorized_message), st)) as Hg
    by (unfold getDiagram; monad_run; by rewrite Hu).
  assert (deleteDiagram env event st
          = (Ok (failure "Failed to delete diagram" unauthorized_message), st)) as Hd
    by (unfold deleteDiagram; monad_run; by rewrite Hu).
  repeat (split; [assumption|]).
  unfold handler. monad_run.
  repeat match goal with
         | |- context [if ?b then _ else _] => destruct b
         end;
    rewrite ?Hc, ?Hl, ?Hg, ?Hd; eexists; (split; [reflexivity|]); auto.
Qed.

Lemma unauthorized_is_500_witness :
  createDiagram Fixture.env_ok (Fixture.anonymous "POST" "/diagrams") Fixture.st1
    = (Ok (failure "Failed to create diagram" unauthorized_message), Fixture.st1).
Proof.
  apply (unauthorized_is_500 Fixture.env_ok (Fixture.anonymous "POST" "/diagrams") Fixture.st1).
  intros c Hc. inversion Hc. reflexivity.
Defined.

(** ** Queries *)

Lemma item_of_attrs_of it : item_of (PK it, SK it) (attrs_of it) = it.
Proof. by destruct it. Qed.

Lemma attrs_of_item_of k a : attrs_of (item_of k a) = a.
Proof. by destruct a. Qed.

(** The rows of a partition are the rows of the table under that
    partition key. *)
Lemma elem_of_partition_of pk t it :
  it ∈ partition_of pk t ↔ PK it = pk ∧ t !! (PK it, SK it) = Some (attrs_of it).
Proof.
  unfold partition_of. rewrite merge_sort_Permutation.
  change (map ?f ?l) with (f <$> l). rewrite list_elem_of_fmap. split.
  - intros ([k a] & -> & Hin). apply elem_of_map_to_list in Hin.
    apply map_lookup_filter_Some in Hin as [Hl Hpk]. simpl in *.
    rewrite attrs_of_item_of. split; [exact Hpk|]. by destruct k.
  - intros [Hpk Hl]. exists ((PK it, SK it), attrs_of it). simpl.
    split; [by rewrite item_of_attrs_of|].
    apply elem_of_map_to_list, map_lookup_filter_Some. by split.
Qed.

Lemma elem_of_run_query pk flt fwd t it :
  it ∈ run_query pk flt fwd t ↔
  it ∈ partition_of pk t ∧ (∀ d, flt = Some d → diagramId it = d).
Proof.
  unfold run_query.
  assert (∀ l, it ∈ (if fwd then l else reverse l) ↔ it ∈ l) as Hdir
    by (intros l; destruct fwd; [done|apply elem_of_reverse]).
  destruct flt as [d|].
  - rewrite list_elem_of_filter, Hdir. split.
    + intros [Hd Hin]. split; [done|]. intros d' [= <-]. done.
    + intros [Hin Hd]. split; [by apply Hd|done].
  - rewrite Hdir. split; [intros Hin; split; [done|discriminate]|by intros [? _]].
Qed.

(** A query reads its own partition only. *)
Lemma partition_of_ext pk t1 t2 :
  (∀ sk, t1 !! (pk, sk) = t2 !! (pk, sk)) → partition_of pk t1 = partition_of pk t2.
Proof.
  intros Hagree. unfold partition_of. do 3 f_equal.
  apply map_eq. intros [p sk]. rewrite !map_lookup_filter. simpl.
  destruct (decide (p = pk)) as [->|Hne].
  - by rewrite Hagree.
  - destruct (t1 !! (p, sk)), (t2 !! (p, sk)); simpl;
      rewrite ?option_guard_False; auto.
Qed.

Lemma run_query_ext pk flt fwd t1 t2 :
  (∀ sk, t1 !! (pk, sk) = t2 !! (pk, sk)) → run_query pk flt fwd t1 = run_query pk flt fwd t2.
Proof. intros H. unfold run_query. by rewrite (partition_of_ext pk t1 t2 H). Qed.

#[local] Instance SK_le_trans : Transitive SK_le.
Proof. intros a b c. unfold SK_le. apply transitivity. Qed.

#[local] Instance SK_le_total : Total SK_le.
Proof. intros a b. unfold SK_le. apply total, _. Qed.

Lemma partition_of_sorted pk t : StronglySorted SK_le (partition_of pk t).
Proof. apply StronglySorted_merge_sort; apply _. Qed.

Lemma partition_of_NoDup_SK pk t : NoDup (SK <$> partition_of pk t).
Proof.
  unfold partition_of. rewrite merge_sort_Permutation.
  change (map ?f ?l) with (f <$> l). rewrite <- list_fmap_compose.
  apply NoDup_fmap_2_strong.
  - intros [k1 a1] [k2 a2] H1 H2 Heq. simpl in Heq.
    apply elem_of_map_to_list in H1, H2.
    pose proof H1 as [Hl1 Hp1]%map_lookup_filter_Some.
    pose proof H2 as [Hl2 Hp2]%map_lookup_filter_Some.
    simpl in *. destruct k1 as [p1 s1], k2 as [p2 s2]. simpl in *. subst.
    rewrite H1 in H2. by inversion H2.
  - apply NoDup_map_to_list.
Qed.

Lemma StronglySorted_reverse_strict (l : list Item) :
  StronglySorted SK_le l → NoDup (SK <$> l) → StronglySorted SK_gt (reverse l).
Proof.
  induction 1 as [|x l Hs IH Hx]; intros Hnd; [constructor|].
  rewrite reverse_cons. rewrite fmap_cons in Hnd. apply NoDup_cons in Hnd as [Hnotin Hnd].
  apply StronglySorted_app. split; [|split; [by apply IH|repeat constructor]].
  intros y z Hy Hz%list_elem_of_singleton. subst z.
  rewrite elem_of_reverse in Hy. rewrite Forall_forall in Hx. split.
  - by apply Hx.
  - intros Heq. apply Hnotin. rewrite <- Heq. apply list_elem_of_fmap. by exists y.
Qed.

(** [ScanIndexForward: false] on a partition: strictly descending sort
    keys. *)
Lemma run_query_descending pk t :
  StronglySorted SK_gt (run_query pk None false t).
Proof.
  unfold run_query.
  apply StronglySorted_reverse_strict; [apply partition_of_sorted|apply partition_of_NoDup_SK].
Qed.

(** ** Pages of a query *)

Lemma filter_take_prefix {A} (P : A → Prop) `{!∀ x, Decision (P x)} (l : list A) n :
  ∃ k, filter P (take n l) = take k (filter P l).
Proof.
  revert n. induction l as [|x l IH]; intros n.
  - exists 0%nat. by rewrite take_nil.
  - destruct n as [|n]; [by exists 0%nat|]. simpl.
    destruct (IH n) as [k Hk]. rewrite !filter_cons.
    destruct (decide (P x)).
    + exists (S k). simpl. by rewrite Hk.
    + by exists k.
Qed.

(** The page is a prefix of the whole result. *)
Lemma query_page_prefix env pk flt fwd t :
  ∃ k, query_page env pk flt fwd t = take k (run_query pk flt fwd t).
Proof.
  unfold query_page, run_query. destruct flt as [d|].
  - apply filter_take_prefix.
  - by eexists.
Qed.

(** It is the whole result when the partition fits in the page. *)
Lemma query_page_fits env pk flt fwd t :
  fits_page env pk fwd t → query_page env pk flt fwd t = run_query pk flt fwd t.
Proof.
  unfold fits_page, query_page, run_query. intros Hfits.
  rewrite take_ge; [reflexivity|]. destruct fwd; [done|by rewrite length_reverse].
Qed.

Lemma query_page_ext env pk flt fwd t1 t2 :
  (∀ sk, t1 !! (pk, sk) = t2 !! (pk, sk)) →
  query_page env pk flt fwd t1 = query_page env pk flt fwd t2.
Proof. intros H. unfold query_page. by rewrite (partition_of_ext pk t1 t2 H). Qed.

Lemma elem_of_query_page env pk flt fwd t it :
  it ∈ query_page env pk flt fwd t → it ∈ run_query pk flt fwd t.
Proof.
  destruct (query_page_prefix env pk flt fwd t) as [k ->]. apply subseteq_take.
Qed.

(** A page that is not empty starts like the whole result. *)
Lemma query_page_head env pk flt fwd t item rest :
  query_page env pk flt fwd t = item :: rest →
  ∃ rest', run_query pk flt fwd t = item :: rest'.
Proof.
  destruct (query_page_prefix env pk flt fwd t) as [k ->].
  destruct (run_query pk flt fwd t) as [|x l]; [by rewrite take_nil|].
  destruct k; [done|]. simpl. intros [= -> _]. by eexists.
Qed.

Lemma query_page_nil env pk flt fwd t :
  run_query pk flt fwd t = [] → query_page env pk flt fwd t = [].
Proof.
  destruct (query_page_prefix env pk flt fwd t) as [k ->]. intros ->. apply take_nil.
Qed.

Lemma StronglySorted_take {A} (R : relation A) (l : list A) k :
  StronglySorted R l → StronglySorted R (take k l).
Proof.
  intros Hs. rewrite <- (take_drop k l) in Hs.
  by apply StronglySorted_app in Hs as (_ & ? & _).
Qed.

(** The rows a page leaves out come after every row of the page. *)
Lemma StronglySorted_take_before {A} (R : relation A) (l : list A) k x y :
  StronglySorted R l → x ∈ take k l → y ∈ l → y ∉ take k l → R x y.
Proof.
  intros Hs Hx Hy Hny. rewrite <- (take_drop k l) in Hs, Hy.
  apply StronglySorted_app in Hs as (Hcross & _ & _).
  apply elem_of_app in Hy as [Hy|Hy]; [done|]. by apply Hcross.
Qed.

Lemma located_head env userId wanted w item rest :
  located env userId wanted w = item :: rest →
  ∃ rest', locate userId wanted w = item :: rest'.
Proof. apply query_page_head. Qed.

(** ** List, Get and Delete, step by step *)

Lemma getDiagram_unfold env event st :
  getDiagram env event st =
    match getUserId event with
    | Pending => (Pending, st)
    | Throw e => (Ok (failure "Failed to get diagram" e), st)
    | Ok userId =>
        if negb (truthy (pathParameters_diagramId event)) then
          (Ok (bad_request "Missing diagramId"), st)
        else
          let diagramId := default EmptyString (pathParameters_diagramId event) in
          let st1 := logged (locate_command userId diagramId) (world st) st in
          match sdk_fault env (locate_command userId diagramId) with
          | Some e => (Ok (failure "Failed to get diagram" e), st1)
          | None =>
              match located env userId diagramId (world st) with
              | [] => (Ok not_found, st1)
              | item :: _ =>
                  match presigner env (s3Key item) with
                  | Abrupt e => (Ok (failure "Failed to get diagram" e), st1)
                  | Normal signedUrl =>
                      match fetchSvgFromS3 env (s3Key item) st1 with
                      | (Pending, st2) => (Pending, st2)
                      | (Throw e, st2) => (Ok (failure "Failed to get diagram" e), st2)
                      | (Ok svgContent, st2) =>
                          (Ok {| statusCode := 200;
                                 response_body :=
                                   BDiagram (view_of item signedUrl svgContent) |}, st2)
                      end
                  end
              end
          end
    end.
Proof.
  unfold getDiagram, generateSignedUrl, getSignedUrl, located, locate_command, partition_key.
  monad_run.
  destruct (getUserId event) as [userId|e|]; [|reflexivity..].
  destruct (negb (truthy (pathParameters_diagramId event))); [reflexivity|].
  rewrite ddb_query_run. cbv zeta.
  destruct (sdk_fault env _); [reflexivity|].
  destruct (query_page _ _ _ _ _) as [|item rest]; [reflexivity|].
  destruct (presigner env (s3Key item)); [|reflexivity]. simpl.
  destruct (fetchSvgFromS3 env (s3Key item) _) as [[svg|e|] st2]; reflexivity.
Qed.

Lemma deleteDiagram_unfold env event st :
  deleteDiagram env event st =
    match getUserId event with
    | Pending => (Pending, st)
    | Throw e => (Ok (failure "Failed to delete diagram" e), st)
    | Ok userId =>
        if negb (truthy (pathParameters_diagramId event)) then
          (Ok (bad_request "Missing diagramId"), st)
        else
          let diagramId := default EmptyString (pathParameters_diagramId event) in
          let st1 := logged (locate_command userId diagramId) (world st) st in
          match sdk_fault env (locate_command userId diagramId) with
          | Some e => (Ok (failure "Failed to delete diagram" e), st1)
          | None =>
              match located env userId diagramId (world st) with
              | [] => (Ok not_found, st1)
              | item :: _ =>
                  match sdk_fault env (S3Delete (s3Key item)) with
                  | Some e =>
                      (Ok (failure "Failed to delete diagram" e),
                       logged (S3Delete (s3Key item)) (world st) st1)
                  | None =>
                      let w2 := delete_blob (s3Key item) (world st) in
                      let st2 := logged (S3Delete (s3Key item)) w2 st1 in
                      match sdk_fault env (DdbDelete (PK item) (SK item)) with
                      | Some e =>
                          (Ok (failure "Failed to delete diagram" e),
                           logged (DdbDelete (PK item) (SK item)) w2 st2)
                      | None =>
                          (Ok deleted,
                           logged (DdbDelete (PK item) (SK item))
                                  (delete_item (PK item) (SK item) w2) st2)
                      end
                  end
              end
          end
    end.
Proof.
  unfold deleteDiagram, s3_delete, ddb_delete, located, locate_command, partition_key.
  monad_run.
  destruct (getUserId event) as [userId|e|]; [|reflexivity..].
  destruct (negb (truthy (pathParameters_diagramId event))); [reflexivity|].
  rewrite ddb_query_run. cbv zeta.
  destruct (sdk_fault env (DdbQuery _ _ _)); [reflexivity|].
  destruct (query_page _ _ _ _ _) as [|item rest]; [reflexivity|].
  rewrite sdk_send_run.
  destruct (sdk_fault env (S3Delete _)); [reflexivity|].
  rewrite sdk_send_run.
  destruct (sdk_fault env (DdbDelete _ _)); reflexivity.
Qed.

(** *** The callback of List *)

Lemma describe_unfold env it st :
  describe env it st =
    (described env (world st) it,
     match presigner env (s3Key it) with
     | Normal _ => logged (S3Get (s3Key it)) (world st) st
     | Abrupt _ => st
     end).
Proof.
  unfold describe, described, generateSignedUrl, getSignedUrl. monad_run.
  destruct (presigner env (s3Key it)); [|reflexivity]. simpl.
  rewrite fetchSvgFromS3_run. unfold fetch_error.
  destruct (blobs (world st) !! s3Key it); [|reflexivity].
  destruct (sdk_fault env _); [reflexivity|].
  destruct (s3_body_missing env _); reflexivity.
Qed.

Lemma described_settles env w it : described env w it ≠ Pending.
Proof.
  unfold described. destruct (presigner env _); [|done].
  destruct (blobs w !! _); [|done]. destruct (sdk_fault env _); [done|].
  by destruct (s3_body_missing env _).
Qed.

Lemma described_Ok env w it d : described env w it = Ok d ↔ shown env w it d.
Proof.
  unfold described, shown. split.
  - destruct (presigner env (s3Key it)) as [url|e] eqn:Hsign; [|discriminate].
    destruct (blobs w !! s3Key it) as [svg|]; [|discriminate].
    destruct (sdk_fault env _); [discriminate|].
    destruct (s3_body_missing env _); [discriminate|].
    intros [= <-]. exists url, svg. by rewrite getSignedUrl_Ok.
  - intros (url & svg & Hsign%getSignedUrl_Ok & -> & -> & -> & ->). by rewrite Hsign.
Qed.

Lemma described_view env w it d :
  described env w it = Ok d → ∃ signedUrl svgContent, d = view_of it signedUrl svgContent.
Proof. intros (url & svg & _ & _ & _ & _ & ->)%described_Ok. by exists url, svg. Qed.

Lemma described_ext env w1 w2 it :
  blobs w1 = blobs w2 → described env w1 it = described env w2 it.
Proof. intros Hb. unfold described. by rewrite Hb. Qed.

Lemma reads_only_app w steps1 steps2 :
  reads_only w steps1 → reads_only w steps2 → reads_only w (steps1 ++ steps2)%list.
Proof. unfold reads_only. intros. by apply Forall_app. Qed.

(** Every callback runs: each row is described in the world List found,
    and the callbacks add nothing but reads to the trace. *)
Lemma map_async_describe env items st :
  ∃ steps,
    map_async (describe env) items st
      = (described env (world st) <$> items,
         {| world := world st; trace := (trace st ++ steps)%list |}) ∧
    reads_only (world st) steps.
Proof.
  revert st. induction items as [|it items IH]; intros st.
  - exists []. split; [|constructor]. simpl. rewrite app_nil_r. by destruct st.
  - cbn [map_async]. rewrite describe_unfold.
    destruct (presigner env (s3Key it)) as [url|e].
    + destruct (IH (logged (S3Get (s3Key it)) (world st) st)) as (steps & -> & Hreads).
      exists ({| action := S3Get (s3Key it); after := world st |} :: steps).
      split; [|constructor; [by split|exact Hreads]].
      cbn [logged world trace]. by rewrite <- app_assoc.
    + destruct (IH st) as (steps & -> & Hreads). by exists steps.
Qed.

(** *** [Promise.all] *)

Lemma fulfilled_Some {B} (rs : list (Res B)) bs : fulfilled rs = Some bs ↔ rs = Ok <$> bs.
Proof.
  revert bs. induction rs as [|r rs IH]; intros bs; simpl.
  - split; [by intros [= <-]|]. by destruct bs.
  - destruct r as [b|e|]; [|split; [discriminate|by destruct bs]..].
    destruct (fulfilled rs) as [bs'|].
    + split.
      * intros [= <-]. simpl. f_equal. by apply IH.
      * destruct bs as [|b' bs'']; [discriminate|]. simpl. intros [= -> Hrs].
        apply IH in Hrs as [= ->]. reflexivity.
    + split; [discriminate|]. destruct bs as [|b' bs'']; [discriminate|].
      simpl. intros [= _ Hrs]. by apply IH in Hrs.
Qed.

Lemma promise_all_Ok {B} env (rs : list (Res B)) bs :
  promise_all env rs = Ok bs ↔ rs = Ok <$> bs.
Proof.
  rewrite <- fulfilled_Some. unfold promise_all.
  destruct (fulfilled rs) as [bs'|].
  - split; congruence.
  - split; [|discriminate]. by destruct (omap rejection rs).
Qed.

(** The rejection [Promise.all] reports is the rejection of one of the
    promises. *)
Lemma promise_all_Throw {B} env (rs : list (Res B)) e :
  promise_all env rs = Throw e → Throw e ∈ rs.
Proof.
  unfold promise_all. destruct (fulfilled rs); [discriminate|].
  destruct (omap rejection rs) as [|m ms] eqn:Hrej; [discriminate|]. intros [= <-].
  assert (default m ((m :: ms) !! first_rejection env (m :: ms)) ∈ omap rejection rs) as Hin.
  { rewrite Hrej. destruct (_ !! _) as [x|] eqn:Hx; simpl.
    - by apply list_elem_of_lookup_2 in Hx.
    - left. }
  apply list_elem_of_omap in Hin as (r & Hr & Hm).
  destruct r as [b|e'|]; simpl in Hm; try discriminate. by inversion Hm; subst.
Qed.

(** It stays pending only when one of the promises does. *)
Lemma promise_all_Pending {B} env (rs : list (Res B)) :
  promise_all env rs = Pending → Pending ∈ rs.
Proof.
  unfold promise_all. destruct (fulfilled rs) eqn:Hf; [discriminate|].
  destruct (omap rejection rs) as [|m ms] eqn:Hrej; [|discriminate]. intros _.
  clear env. induction rs as [|r rs IH]; [discriminate|].
  destruct r as [b|e|]; simpl in *; [|discriminate|left].
  right. apply IH; [|exact Hrej]. by destruct (fulfilled rs).
Qed.

Lemma described_all_Ok env w items ds :
  described env w <$> items = Ok <$> ds ↔ Forall2 (shown env w) items ds.
Proof.
  revert ds. induction items as [|it items IH]; intros [|d ds]; simpl.
  - split; [constructor|done].
  - split; [discriminate|by intros H; inversion H].
  - split; [discriminate|by intros H; inversion H].
  - split.
    + intros [= Hd Hrest]. constructor; [by apply described_Ok|by apply IH].
    + intros (Hd%described_Ok & Hrest%IH)%Forall2_cons. by f_equal.
Qed.

(** *** List *)

Lemma listDiagrams_unfold env event st :
  ∃ steps,
    reads_only (world st) steps ∧
    listDiagrams env event st =
      match getUserId event with
      | Pending => (Pending, st)
      | Throw e => (Ok (failure "Failed to list diagrams" e), st)
      | Ok userId =>
          match sdk_fault env (list_command userId) with
          | Some e =>
              (Ok (failure "Failed to list diagrams" e),
               logged (list_command userId) (world st) st)
          | None =>
              (list_outcome env (world st) (listed_page env userId (world st)),
               {| world := world st;
                  trace := (trace st ++ {| action := list_command userId;
                                           after := world st |} :: steps)%list |})
          end
      end.
Proof.
  unfold listDiagrams, list_command, listed_page, list_outcome, partition_key.
  fold (describe env). monad_run.
  destruct (getUserId event) as [userId|e|]; [|exists []; split; [constructor|reflexivity]..].
  rewrite ddb_query_run.
  destruct (sdk_fault env _); [exists []; split; [constructor|reflexivity]|].
  unfold promise_all_map.
  destruct (map_async_describe env
              (query_page env ("USER#" +:+ userId) None false (catalog (world st)))
              (logged (DdbQuery ("USER#" +:+ userId) None false) (world st) st))
    as (steps & -> & Hreads).
  exists steps. split; [exact Hreads|]. cbn [logged world trace].
  rewrite <- app_assoc.
  destruct (promise_all env _) as [ds|e|]; reflexivity.
Qed.

Lemma list_outcome_settles env w items : list_outcome env w items ≠ Pending.
Proof.
  unfold list_outcome. destruct (promise_all env _) as [ds|e|] eqn:Hall; [done..|].
  apply promise_all_Pending, list_elem_of_fmap in Hall as (it & Hit & _).
  symmetry in Hit. by apply described_settles in Hit.
Qed.

Lemma list_outcome_200 env w items ds :
  list_outcome env w items = Ok {| statusCode := 200; response_body := BDiagrams ds |} ↔
  Forall2 (shown env w) items ds.
Proof.
  rewrite <- described_all_Ok, <- (promise_all_Ok env). unfold list_outcome, failure.
  destruct (promise_all env _) as [ds'|e|]; split; intros [=]; congruence.
Qed.

Lemma shown_views env w items ds : Forall2 (shown env w) items ds → views_of items ds.
Proof.
  intros H. eapply Forall2_impl; [exact H|].
  intros it d (url & svg & _ & _ & _ & _ & ->). by exists url, svg.
Qed.

Lemma listDiagrams_run env event st res st' :
  listDiagrams env event st = (res, st') →
  world st' = world st ∧
  ∀ ds, res = Ok {| statusCode := 200; response_body := BDiagrams ds |} →
        ∃ userId, getUserId event = Ok userId ∧
                  Forall2 (shown env (world st)) (listed_page env userId (world st)) ds.
Proof.
  destruct (listDiagrams_unfold env event st) as (steps & _ & ->).
  destruct (getUserId event) as [userId|e|];
    [|intros [= <- <-]; split; [done|discriminate]..].
  destruct (sdk_fault env _); [intros [= <- <-]; split; [done|discriminate]|].
  intros [= <- <-]. split; [reflexivity|].
  intros ds Hds%list_outcome_200. by exists userId.
Qed.

(** ** Ordering of sort keys and of timestamps *)

Lemma ascii_compare_refl c : Ascii.compare c c = Eq.
Proof. unfold Ascii.compare. apply N.compare_refl. Qed.

Lemma compare_app_prefix p x y :
  String.compare (p +:+ x) (p +:+ y) = String.compare x y.
Proof. induction p as [|c p IH]; simpl; [reflexivity|]. by rewrite ascii_compare_refl. Qed.

Lemma compare_app_same_length a b x y :
  String.length a = String.length b →
  String.compare (a +:+ x) (b +:+ y) =
    match String.compare a b with
    | Eq => String.compare x y
    | c => c
    end.
Proof.
  revert b. induction a as [|c a IH]; intros [|d b] Hlen; simpl in *; try discriminate.
  - reflexivity.
  - destruct (Ascii.compare c d); auto.
Qed.

(** Between two sort keys built from timestamps of the same length, the
    order of the keys gives the order of the timestamps. *)
Lemma sort_key_le_createdAt c1 i1 c2 i2 :
  String.length c1 = String.length c2 →
  String.le ("DIAGRAM#" +:+ c1 +:+ "#" +:+ i1) ("DIAGRAM#" +:+ c2 +:+ "#" +:+ i2) →
  String.le c1 c2.
Proof.
  intros Hlen. unfold String.le, String.leb.
  rewrite compare_app_prefix, (compare_app_same_length _ _ _ _ Hlen).
  destruct (String.compare c1 c2); simpl; auto.
Qed.

Lemma views_newest_first items ds :
  (∀ it, it ∈ items → written_by_create (SK it) (attrs_of it)) →
  StronglySorted SK_gt items →
  views_of items ds →
  newest_first ds.
Proof.
  intros Hwf Hsorted Hviews. revert Hwf Hsorted.
  induction Hviews as [|it d items ds (url & svg & ->) Hviews IH]; intros Hwf Hsorted.
  - constructor.
  - apply StronglySorted_inv in Hsorted as [Hsorted Hhd].
    constructor.
    + apply IH; [|exact Hsorted]. intros it' Hin. apply Hwf. by right.
    + clear IH. rewrite Forall_forall in Hhd. apply Forall_forall. intros d Hd.
      apply (list_elem_of_lookup_1 _ _) in Hd as [i Hi].
      destruct (Forall2_lookup_r _ _ _ _ _ Hviews Hi) as (it' & Hi' & url' & svg' & ->).
      apply list_elem_of_lookup_2 in Hi'.
      destruct (Hhd it' Hi') as [Hle _].
      destruct (Hwf it (list_elem_of_here _ _)) as [Hsk Hlen].
      destruct (Hwf it' ltac:(by right)) as [Hsk' Hlen'].
      simpl in *. rewrite Hsk, Hsk' in Hle.
      assert (String.length (createdAt it') = String.length (createdAt it)) as Hsame
        by congruence.
      exact (sort_key_le_createdAt _ _ _ _ Hsame Hle).
Qed.

(** ** List: claims *)

(** C6 as stated fails: after two creations by the same owner within
    one millisecond, List returns two entries with the same [createdAt];
    the order is not strict. *)
Lemma list_is_not_strictly_descending :
  ¬ (∀ env event st ds st',
       listDiagrams env event st
         = (Ok {| statusCode := 200; response_body := BDiagrams ds |}, st') →
       strictly_newest_first ds).
Proof.
  intros Hclaim.
  assert ((listDiagrams Fixture.env_ok (Fixture.list_by "alice") Fixture.st2).1
          = Ok {| statusCode := 200;
                  response_body :=
                    BDiagrams [Fixture.alice_second_view; Fixture.alice_first_view] |})
    as Hres by by_evaluation.
  destruct (listDiagrams Fixture.env_ok (Fixture.list_by "alice") Fixture.st2)
    as [res st'] eqn:Hrun.
  simpl in Hres. subst res.
  apply Hclaim in Hrun. apply StronglySorted_inv in Hrun as [_ Hhd].
  apply Forall_cons in Hhd as [[_ Hne] _]. by apply Hne.
Qed.

(** C6 (amended).  When every row of the table has the shape Create
    gives it, a successful List returns rows of the caller only, namely
    the first page of the caller's partition: the rows with the greatest
    sort keys (every row of the caller that is left out has a smaller
    sort key than every row returned), and all the caller's rows when
    the partition fits in one page.  They come in strictly descending
    order of sort key, so that their [createdAt] values never increase
    from one entry to the next; entries created within the same
    millisecond share their [createdAt]. *)
Theorem list_newest_first env event st ds st' :
  rows_written_by_create (catalog (world st)) →
  listDiagrams env event st
    = (Ok {| statusCode := 200; response_body := BDiagrams ds |}, st') →
  ∃ userId items,
    getUserId event = Ok userId ∧
    items = listed_page env userId (world st) ∧
    (∀ it, it ∈ items →
           PK it = partition_key userId ∧
           catalog (world st) !! (PK it, SK it) = Some (attrs_of it)) ∧
    (∀ it it', it ∈ items →
               PK it' = partition_key userId →
               catalog (world st) !! (PK it', SK it') = Some (attrs_of it') →
               it' ∉ items →
               SK_gt it it') ∧
    (fits_page env (partition_key userId) false (catalog (world st)) →
     ∀ it, PK it = partition_key userId →
           catalog (world st) !! (PK it, SK it) = Some (attrs_of it) →
           it ∈ items) ∧
    views_of items ds ∧
    StronglySorted SK_gt items ∧
    newest_first ds.
Proof.
  intros Hwf Hrun. destruct (listDiagrams_run _ _ _ _ _ Hrun) as [_ Hviews].
  destruct (Hviews ds eq_refl) as (userId & Hu & Hds%shown_views).
  exists userId, (listed_page env userId (world st)).
  assert (∀ it, it ∈ run_query (partition_key userId) None false (catalog (world st)) ↔
                PK it = partition_key userId ∧
                catalog (world st) !! (PK it, SK it) = Some (attrs_of it)) as Hrows.
  { intros it. rewrite elem_of_run_query, elem_of_partition_of. split.
    - by intros [? _].
    - intros ?. split; [done|discriminate]. }
  assert (StronglySorted SK_gt (listed_page env userId (world st))) as Hsorted.
  { unfold listed_page.
    destruct (query_page_prefix env (partition_key userId) None false (catalog (world st)))
      as [k ->].
    apply StronglySorted_take, run_query_descending. }
  assert (∀ it, it ∈ listed_page env userId (world st) →
                PK it = partition_key userId ∧
                catalog (world st) !! (PK it, SK it) = Some (attrs_of it)) as Hown.
  { intros it Hin. unfold listed_page in Hin. apply elem_of_query_page in Hin.
    by apply Hrows. }
  split; [exact Hu|]. split; [reflexivity|]. split; [exact Hown|].
  split; [|split; [|split; [exact Hds|split; [exact Hsorted|]]]].
  - unfold listed_page.
    destruct (query_page_prefix env (partition_key userId) None false (catalog (world st)))
      as [k ->].
    intros it it' Hin Hpk Hrow Hout.
    apply (StronglySorted_take_before _ _ k it it' (run_query_descending _ _) Hin);
      [|exact Hout].
    by apply Hrows.
  - intros Hfits it Hpk Hrow. unfold listed_page.
    rewrite (query_page_fits _ _ _ _ _ Hfits). by apply Hrows.
  - eapply views_newest_first; [|exact Hsorted|exact Hds].
    intros it [_ Hrow]%Hown. by apply (Hwf _ _ _ Hrow).
Qed.

(** The shape is an invariant: the empty table has it and every
    operation keeps it, provided the clock prints 24-character
    timestamps. *)
Lemma rows_written_by_create_empty : rows_written_by_create ∅.
Proof. intros pk sk a Hl. by rewrite lookup_empty in Hl. Qed.

Lemma createDiagram_keeps_shape env event st :
  String.length (toISOString_now env) = 24%nat →
  rows_written_by_create (catalog (world st)) →
  rows_written_by_create (catalog (world (createDiagram env event st).2)).
Proof.
  intros Hclock Hwf.
  destruct (createDiagram env event st) as [res st'] eqn:Hrun. simpl.
  destruct (createDiagram_writes _ _ _ _ _ Hrun)
    as [->|(userId & body & key & _ & ->)]; [exact Hwf|].
  intros pk sk a Hl. cbn [put_item catalog] in Hl.
  apply lookup_insert_Some in Hl as [[Hk <-]|[_ Hl]]; [|by apply (Hwf _ _ _ Hl)].
  inversion Hk; subst. by split.
Qed.

Lemma getDiagram_world env event st : world (getDiagram env event st).2 = world st.
Proof.
  rewrite getDiagram_unfold.
  destruct (getUserId event); [|reflexivity..].
  destruct (negb _); [reflexivity|]. cbv zeta.
  destruct (sdk_fault env _); [reflexivity|].
  destruct (located _ _ _ _) as [|item rest]; [reflexivity|].
  destruct (presigner env _); [|reflexivity].
  rewrite fetchSvgFromS3_run. simpl.
  destruct (blobs (world st) !! s3Key item); [|reflexivity].
  destruct (sdk_fault env _); [reflexivity|].
  destruct (s3_body_missing env _); reflexivity.
Qed.

Lemma listDiagrams_world env event st : world (listDiagrams env event st).2 = world st.
Proof.
  destruct (listDiagrams env event st) as [res st'] eqn:Hrun.
  by destruct (listDiagrams_run _ _ _ _ _ Hrun).
Qed.

(** Delete removes at most the row it located and never adds one. *)
Lemma deleteDiagram_catalog env event st :
  catalog (world (deleteDiagram env event st).2) = catalog (world st) ∨
  ∃ userId item rest,
    getUserId event = Ok userId ∧
    locate userId (default EmptyString (pathParameters_diagramId event)) (world st)
      = item :: rest ∧
    catalog (world (deleteDiagram env event st).2)
      = delete (PK item, SK item) (catalog (world st)).
Proof.
  rewrite deleteDiagram_unfold.
  destruct (getUserId event) as [userId| |]; [|by left..].
  destruct (negb _); [by left|]. cbv zeta.
  destruct (sdk_fault env (locate_command _ _)); [by left|].
  destruct (located _ _ _ _) as [|item rest] eqn:Hloc; [by left|].
  destruct (located_head _ _ _ _ _ _ Hloc) as [rest' Hwhole].
  destruct (sdk_fault env (S3Delete _)); [by left|].
  destruct (sdk_fault env (DdbDelete _ _)); [by left|].
  right. by exists userId, item, rest'.
Qed.

(** *** No operation throws *)

Lemma try_catch_no_throw {A} (m : M A) (h : string → M A) st :
  (∀ e, (m st).1 ≠ Throw e) → try_catch m h st = m st.
Proof.
  intros Hno. unfold try_catch. destruct (m st) as [[a|e|] s]; [reflexivity| |reflexivity].
  by destruct (Hno e).
Qed.

Lemma createDiagram_no_throw env event st e : (createDiagram env event st).1 ≠ Throw e.
Proof. rewrite createDiagram_unfold. cbv zeta. split_matches; discriminate. Qed.

Lemma getDiagram_no_throw env event st e : (getDiagram env event st).1 ≠ Throw e.
Proof. rewrite getDiagram_unfold. cbv zeta. split_matches; discriminate. Qed.

Lemma deleteDiagram_no_throw env event st e : (deleteDiagram env event st).1 ≠ Throw e.
Proof. rewrite deleteDiagram_unfold. cbv zeta. split_matches; discriminate. Qed.

Lemma listDiagrams_no_throw env event st e : (listDiagrams env event st).1 ≠ Throw e.
Proof.
  destruct (listDiagrams_unfold env event st) as (steps & _ & ->).
  unfold list_outcome. split_matches; discriminate.
Qed.

(** The entry point adds nothing to the operation it routes to: its own
    [catch] is never reached. *)
Lemma handler_unfold env event st :
  handler env event st =
    if String.eqb (method event) "POST" && String.eqb (path event) "/diagrams" then
      createDiagram env event st
    else if String.eqb (method event) "GET" && String.eqb (path event) "/diagrams" then
      listDiagrams env event st
    else if String.eqb (method event) "GET" && startsWith "/diagrams/" (path event) then
      getDiagram env event st
    else if String.eqb (method event) "DELETE" && startsWith "/diagrams/" (path event) then
      deleteDiagram env event st
    else (Ok route_not_found, st).
Proof.
  unfold handler. rewrite try_catch_no_throw.
  - repeat match goal with
           | |- context [if ?b then _ else _] => destruct b
           end; reflexivity.
  - intros e.
    repeat match goal with
           | |- context [if ?b then _ else _] => destruct b
           end;
      [apply createDiagram_no_throw|apply listDiagrams_no_throw|apply getDiagram_no_throw
      |apply deleteDiagram_no_throw|discriminate].
Qed.

Lemma handler_keeps_shape env event st :
  String.length (toISOString_now env) = 24%nat →
  rows_written_by_create (catalog (world st)) →
  rows_written_by_create (catalog (world (handler env event st).2)).
Proof.
  intros Hclock Hwf. rewrite handler_unfold.
  repeat match goal with
         | |- context [if ?b then _ else _] => destruct b
         end.
  - by apply createDiagram_keeps_shape.
  - by rewrite listDiagrams_world.
  - by rewrite getDiagram_world.
  - destruct (deleteDiagram_catalog env event st)
      as [->|(userId & item & rest & _ & _ & ->)]; [exact Hwf|].
    intros pk sk a [_ Hl]%lookup_delete_Some. by apply (Hwf _ _ _ Hl).
  - exact Hwf.
Qed.

Lemma list_newest_first_witness :
  newest_first [Fixture.alice_later_view; Fixture.alice_first_view] ∧
  ¬ newest_first [Fixture.alice_first_view; Fixture.alice_later_view].
Proof.
  split.
  - assert ((listDiagrams Fixture.env_ok (Fixture.list_by "alice") Fixture.st_later).1
            = Ok {| statusCode := 200;
                    response_body :=
                      BDiagrams [Fixture.alice_later_view; Fixture.alice_first_view] |})
      as Hres by by_evaluation.
    destruct (listDiagrams Fixture.env_ok (Fixture.list_by "alice") Fixture.st_later)
      as [res st'] eqn:Hrun.
    simpl in Hres. subst res.
    destruct (list_newest_first Fixture.env_ok (Fixture.list_by "alice") Fixture.st_later
                [Fixture.alice_later_view; Fixture.alice_first_view] st')
      as (userId & items & _ & _ & _ & _ & _ & _ & _ & Hsorted).
    + apply (createDiagram_keeps_shape Fixture.env_later); [reflexivity|].
      apply (createDiagram_keeps_shape Fixture.env_ok); [reflexivity|].
      apply rows_written_by_create_empty.
    + exact Hrun.
    + exact Hsorted.
  - intros Hsorted. apply StronglySorted_inv in Hsorted as [_ Hhd].
    apply Forall_cons in Hhd as [Hle _]. vm_compute in Hle. exact Hle.
Defined.

(** ** Get and Delete: claims *)

Lemma elem_of_locate userId wanted w it :
  it ∈ locate userId wanted w ↔
  PK it = partition_key userId ∧
  catalog w !! (PK it, SK it) = Some (attrs_of it) ∧
  diagramId it = wanted.
Proof.
  unfold locate. rewrite elem_of_run_query, elem_of_partition_of. split.
  - intros [[? ?] Hd]. repeat split; auto.
  - intros (? & ? & Hd). repeat split; auto. by intros d [= <-].
Qed.

Lemma locate_absent userId diagramId w :
  absent userId diagramId w → locate userId diagramId w = [].
Proof.
  intros Habs. destruct (locate userId diagramId w) as [|it rest] eqn:Hloc; [reflexivity|].
  assert (it ∈ locate userId diagramId w) as Hin by (rewrite Hloc; left).
  apply elem_of_locate in Hin as (Hpk & Hrow & Hd). rewrite Hpk in Hrow.
  by destruct (Habs _ _ Hrow).
Qed.

Lemma absent_of_locate userId diagramId w :
  locate userId diagramId w = [] → absent userId diagramId w.
Proof.
  intros Hloc sk a Hrow Hd.
  assert (item_of (partition_key userId, sk) a ∈ locate userId diagramId w) as Hin.
  { apply elem_of_locate. simpl. by rewrite attrs_of_item_of. }
  rewrite Hloc in Hin. by apply elem_of_nil in Hin.
Qed.

Lemma located_absent env userId diagramId w :
  absent userId diagramId w → located env userId diagramId w = [].
Proof. intros Habs. by apply query_page_nil, (locate_absent userId diagramId w). Qed.

(** C8.  For a resolved caller and a diagram id none of the caller's
    rows carries (the table being reachable), Get answers 404 and Delete
    answers 404, each leaving table and bucket as they were; asked a
    second time, in the state the first call left, each answers 404
    again. *)
Theorem absent_id_is_not_found env env' event st userId diagramId :
  getUserId event = Ok userId →
  pathParameters_diagramId event = Some diagramId →
  diagramId ≠ EmptyString →
  sdk_fault env (locate_command userId diagramId) = None →
  sdk_fault env' (locate_command userId diagramId) = None →
  absent userId diagramId (world st) →
  ∃ st_get st_delete,
    getDiagram env event st
      = (Ok {| statusCode := 404; response_body := BError "Diagram not found" |}, st_get) ∧
    world st_get = world st ∧
    deleteDiagram env event st
      = (Ok {| statusCode := 404; response_body := BError "Diagram not found" |}, st_delete) ∧
    world st_delete = world st ∧
    (getDiagram env' event st_get).1
      = Ok {| statusCode := 404; response_body := BError "Diagram not found" |} ∧
    (deleteDiagram env' event st_delete).1
      = Ok {| statusCode := 404; response_body := BError "Diagram not found" |}.
Proof.
  intros Hu Hid Hne Hq Hq' Habs.
  assert (truthy (Some diagramId) = true) as Ht by (by destruct diagramId).
  assert (∀ e s, world s = world st →
            sdk_fault e (locate_command userId diagramId) = None →
            getDiagram e event s
              = (Ok not_found, logged (locate_command userId diagramId) (world s) s) ∧
            deleteDiagram e event s
              = (Ok not_found, logged (locate_command userId diagramId) (world s) s))
    as Hboth.
  { intros e s Hw He.
    rewrite getDiagram_unfold, deleteDiagram_unfold, Hu, Hid, Ht. simpl.
    rewrite He, Hw, (located_absent e _ _ _ Habs). by split. }
  destruct (Hboth env st eq_refl Hq) as [Hg Hd].
  exists (logged (locate_command userId diagramId) (world st) st),
         (logged (locate_command userId diagramId) (world st) st).
  split; [exact Hg|]. split; [reflexivity|]. split; [exact Hd|]. split; [reflexivity|].
  destruct (Hboth env' (logged (locate_command userId diagramId) (world st) st) eq_refl Hq')
    as [-> ->].
  by split.
Qed.

Lemma absent_id_is_not_found_witness :
  (getDiagram Fixture.env_ok (Fixture.get_by "alice" "nope") Fixture.st1).1 = Ok not_found ∧
  (deleteDiagram Fixture.env_ok (Fixture.delete_by "alice" "nope") Fixture.st1).1
    = Ok not_found.
Proof.
  assert (absent "alice" "nope" (world Fixture.st1)) as Habs
    by (apply absent_of_locate; by_evaluation).
  destruct (absent_id_is_not_found Fixture.env_ok Fixture.env_ok
              (Fixture.get_by "alice" "nope") Fixture.st1 "alice" "nope")
    as (s1 & s2 & Hg & _ & _ & _ & _ & _); [reflexivity|reflexivity|discriminate
                                            |reflexivity|reflexivity|exact Habs|].
  destruct (absent_id_is_not_found Fixture.env_ok Fixture.env_ok
              (Fixture.delete_by "alice" "nope") Fixture.st1 "alice" "nope")
    as (s3 & s4 & _ & _ & Hd & _ & _ & _); [reflexivity|reflexivity|discriminate
                                            |reflexivity|reflexivity|exact Habs|].
  rewrite Hg, Hd. by split.
Defined.



(** ** Isolation across owners *)

Lemma partition_key_inj A B : partition_key A = partition_key B → A = B.
Proof. unfold partition_key. intros H. by simplify_eq. Qed.

Lemma fetch_fst env key s1 s2 :
  blobs (world s1) = blobs (world s2) →
  (fetchSvgFromS3 env key s1).1 = (fetchSvgFromS3 env key s2).1.
Proof. intros Hb. rewrite !fetchSvgFromS3_run. simpl. by rewrite Hb. Qed.

(** C9.  Let [A] and [B] be distinct owners and take any two states
    that differ at most in the rows of [A] (whatever their diagram ids).
    With the identity of [B], List, Get and Delete answer the same in
    both states: nothing they return depends on a row of [A].  Every row
    their queries yield lies in the partition of [B], which is not the
    partition of [A], and Delete by [B] leaves every row of [A] in
    place. *)
Theorem owner_isolation env event (A B : string) st1 st2 :
  A ≠ B →
  getUserId event = Ok B →
  same_outside A (world st1) (world st2) →
  (listDiagrams env event st1).1 = (listDiagrams env event st2).1 ∧
  (getDiagram env event st1).1 = (getDiagram env event st2).1 ∧
  (deleteDiagram env event st1).1 = (deleteDiagram env event st2).1 ∧
  (∀ flt fwd it,
     it ∈ run_query (partition_key B) flt fwd (catalog (world st1)) →
     PK it = partition_key B ∧ PK it ≠ partition_key A) ∧
  (∀ sk, catalog (world (deleteDiagram env event st1).2) !! (partition_key A, sk)
         = catalog (world st1) !! (partition_key A, sk)).
Proof.
  intros Hne Hu [Hblobs Hrows].
  assert (partition_key B ≠ partition_key A) as Hpk
    by (intros H%partition_key_inj; congruence).
  assert (∀ flt fwd, query_page env (partition_key B) flt fwd (catalog (world st1))
                     = query_page env (partition_key B) flt fwd (catalog (world st2))) as Hq.
  { intros flt fwd. apply query_page_ext. intros sk. by apply Hrows. }
  split; [|split; [|split; [|split]]].
  - destruct (listDiagrams_unfold env event st1) as (steps1 & _ & ->).
    destruct (listDiagrams_unfold env event st2) as (steps2 & _ & ->).
    rewrite Hu. destruct (sdk_fault env _); [reflexivity|].
    unfold listed_page, list_outcome. cbn [fst]. rewrite Hq.
    assert (described env (world st1) <$>
              query_page env (partition_key B) None false (catalog (world st2))
            = described env (world st2) <$>
                query_page env (partition_key B) None false (catalog (world st2))) as ->;
      [|reflexivity].
    apply list_fmap_ext. intros i it _. by apply described_ext.
  - rewrite !getDiagram_unfold, Hu. destruct (negb _); [reflexivity|]. cbv zeta.
    destruct (sdk_fault env _); [reflexivity|]. unfold located. rewrite Hq.
    destruct (query_page _ _ _ _ _) as [|item rest]; [reflexivity|].
    destruct (presigner env _); [|reflexivity].
    pose proof (fetch_fst env (s3Key item)
                  (logged (locate_command B
                             (default EmptyString (pathParameters_diagramId event)))
                          (world st1) st1)
                  (logged (locate_command B
                             (default EmptyString (pathParameters_diagramId event)))
                          (world st2) st2) Hblobs) as Hf.
    destruct (fetchSvgFromS3 env (s3Key item) (logged _ _ st1)) as [[svg1|e1|] t1],
             (fetchSvgFromS3 env (s3Key item) (logged _ _ st2)) as [[svg2|e2|] t2];
      simpl in *; congruence.
  - rewrite !deleteDiagram_unfold, Hu. destruct (negb _); [reflexivity|]. cbv zeta.
    destruct (sdk_fault env (locate_command _ _)); [reflexivity|]. unfold located. rewrite Hq.
    destruct (query_page _ _ _ _ _) as [|item rest]; [reflexivity|].
    destruct (sdk_fault env (S3Delete _)); [reflexivity|].
    destruct (sdk_fault env (DdbDelete _ _)); reflexivity.
  - intros flt fwd it [[Hit _]%elem_of_partition_of _]%elem_of_run_query.
    split; [exact Hit|]. by rewrite Hit.
  - intros sk.
    destruct (deleteDiagram_catalog env event st1)
      as [->|(userId & item & rest & Hu' & Hloc & ->)]; [reflexivity|].
    assert (item ∈ locate userId
              (default EmptyString (pathParameters_diagramId event)) (world st1)) as Hin
      by (rewrite Hloc; left).
    apply elem_of_locate in Hin as (Hitem & _ & _).
    apply lookup_delete_ne. intros [= Hk _]. apply Hpk. congruence.
Qed.

Lemma owner_isolation_witness :
  (getDiagram Fixture.env_ok (Fixture.get_by "bob" "1704067200000-82mvyr") Fixture.st3).1
    = (getDiagram Fixture.env_ok (Fixture.get_by "bob" "1704067200000-82mvyr")
                  Fixture.st3_without_alice).1 ∧
  catalog (world (deleteDiagram Fixture.env_ok
                    (Fixture.delete_by "bob" "1704067200000-82mvyr") Fixture.st3).2)
    !! (partition_key "alice", SK Fixture.alice_item)
    = Some (attrs_of Fixture.alice_item).
Proof.
  assert (same_outside "alice" (world Fixture.st3) (world Fixture.st3_without_alice))
    as Hsame.
  { split; [by_evaluation|]. intros pk sk Hpk.
    change (catalog (world Fixture.st3_without_alice))
      with (delete ("USER#alice", "DIAGRAM#2024-01-01T00:00:00.000Z#1704067200000-82mvyr")
                   (catalog (world Fixture.st3))).
    symmetry. apply lookup_delete_ne. intros [= <- _]. by apply Hpk. }
  split.
  - destruct (owner_isolation Fixture.env_ok
                (Fixture.get_by "bob" "1704067200000-82mvyr") "alice" "bob"
                Fixture.st3 Fixture.st3_without_alice) as (_ & Hget & _);
      [discriminate|reflexivity|exact Hsame|exact Hget].
  - destruct (owner_isolation Fixture.env_ok
                (Fixture.delete_by "bob" "1704067200000-82mvyr") "alice" "bob"
                Fixture.st3 Fixture.st3_without_alice) as (_ & _ & _ & _ & Hkeep);
      [discriminate|reflexivity|exact Hsame|].
    rewrite Hkeep. by_evaluation.
Defined.

(** * Further properties of the handler *)

(** ** Routing *)






(** X2.  A request that matches none of the four routes is answered 404
    [Not found] before the identity is even looked at, with no external
    call: any method other than POST, GET and DELETE; POST to a path
    other than [/diagrams] (a trailing slash included); GET outside
    [/diagrams] and [/diagrams/...]; DELETE outside [/diagrams/...]. *)
Theorem unknown_route_is_404 env event st :
  (method event = "POST" → path event ≠ "/diagrams") →
  (method event = "GET" →
   path event ≠ "/diagrams" ∧ startsWith "/diagrams/" (path event) = false) →
  (method event = "DELETE" → startsWith "/diagrams/" (path event) = false) →
  handler env event st
    = (Ok {| statusCode := 404; response_body := BError "Not found" |}, st).
Proof.
  intros Hpost Hget Hdelete. rewrite handler_unfold.
  destruct (String.eqb_spec (method event) "POST") as [Hm|_].
  { destruct (String.eqb_spec (path event) "/diagrams") as [Hp|_]; [by destruct (Hpost Hm)|].
    rewrite Hm. reflexivity. }
  destruct (String.eqb_spec (method event) "GET") as [Hm|_].
  { destruct (Hget Hm) as [Hp ->].
    destruct (String.eqb_spec (path event) "/diagrams") as [Hp'|_]; [done|].
    rewrite Hm. reflexivity. }
  destruct (String.eqb_spec (method event) "DELETE") as [Hm|_]; [|reflexivity].
  by rewrite (Hdelete Hm).
Qed.

Lemma unknown_route_is_404_witness :
  handler Fixture.env_ok (Fixture.request None "POST" "/diagrams/" None None) Fixture.st1
    = (Ok {| statusCode := 404; response_body := BError "Not found" |}, Fixture.st1).
Proof.
  apply unknown_route_is_404.
  - intros _. discriminate.
  - discriminate.
  - discriminate.
Defined.

(** X3.  Dispatch: POST [/diagrams] is Create, GET [/diagrams] is List,
    GET on a path that starts with [/diagrams/] is Get and DELETE on
    such a path is Delete; in each case the entry point returns exactly
    the response and the state of that operation. *)
Theorem handler_dispatch env event st :
  (method event = "POST" → path event = "/diagrams" →
   handler env event st = createDiagram env event st) ∧
  (method event = "GET" → path event = "/diagrams" →
   handler env event st = listDiagrams env event st) ∧
  (method event = "GET" → startsWith "/diagrams/" (path event) = true →
   handler env event st = getDiagram env event st) ∧
  (method event = "DELETE" → startsWith "/diagrams/" (path event) = true →
   handler env event st = deleteDiagram env event st).
Proof.
  rewrite handler_unfold. repeat split.
  - intros -> ->. reflexivity.
  - intros -> ->. reflexivity.
  - intros -> Hp. rewrite Hp. simpl.
    destruct (String.eqb_spec (path event) "/diagrams") as [Heq|_]; [|reflexivity].
    rewrite Heq in Hp. discriminate.
  - intros -> Hp. rewrite Hp. reflexivity.
Qed.

Lemma handler_dispatch_witness :
  handler Fixture.env_ok (Fixture.get_by "alice" "1704067200000-82mvyr") Fixture.st1
    = getDiagram Fixture.env_ok (Fixture.get_by "alice" "1704067200000-82mvyr")
                 Fixture.st1.
Proof.
  apply (handler_dispatch Fixture.env_ok
           (Fixture.get_by "alice" "1704067200000-82mvyr") Fixture.st1);
    reflexivity.
Defined.

(** ** Create, the successful run *)

Lemma callD2Service_replied env d f u i st key :
  replied_key env (payload_of d f u i) (blobs (world st)) key →
  callD2Service env d f u i st = (Ok key, after_render env (payload_of d f u i) st).
Proof.
  intros (data & response & Hw & Hp & Hs & Hk & Hne).
  unfold callD2Service, after_render, bind, get_world, record_step, payload_of, logged in *.
  simpl in *. destruct (d2_worker env _ (blobs (world st))) as [outcome b']. simpl in *.
  subst outcome. simpl. rewrite Hp, Hs, Hk. destruct key; [done|reflexivity].
Qed.

Lemma render_of_replied env userId body st key :
  replied_key env (payload_for env userId body) (blobs (world st)) key →
  render_of env userId body st = (Ok key, after_render env (payload_for env userId body) st).
Proof.
  intros Hkey. unfold render_of, renderD2Diagram, try_catch, bind.
  fold (payload_for env userId body) in *.
  unfold payload_for in *. by rewrite (callD2Service_replied _ _ _ _ _ _ _ Hkey).
Qed.

(** X4.  The successful run of Create.  When the request passes the
    checks, the rendering service names a key in a well-formed 200 reply,
    the put succeeds, the URL can be signed and the bucket returns the
    content under that key, Create answers 201 with the generated id, the
    requested type, the timestamp, the signed URL, that content and the
    render duration; it has issued exactly three commands (render, put,
    get) and the only change to the table is the new row. *)
Theorem create_success env event st userId body key signedUrl svgContent :
  create_ready env event userId body →
  replied_key env (payload_for env userId body) (blobs (world st)) key →
  sdk_fault env (DdbPut (new_item env userId body key)) = None →
  getSignedUrl env key = Ok signedUrl →
  blobs (world (after_render env (payload_for env userId body) st)) !! key
    = Some svgContent →
  sdk_fault env (S3Get key) = None →
  s3_body_missing env key = false →
  ∃ st',
    createDiagram env event st =
      (Ok {| statusCode := 201;
             response_body :=
               BCreated (new_diagramId env) (default EmptyString (req_diagramType body))
                        (toISOString_now env) signedUrl svgContent
                        (Date_now env 2 - Date_now env 1) |}, st') ∧
    world st' = put_item (new_item env userId body key)
                  (world (after_render env (payload_for env userId body) st)) ∧
    map action (trace st') =
      (map action (trace st) ++
       [CallRender (payload_for env userId body);
        DdbPut (new_item env userId body key);
        S3Get key])%list.
Proof.
  intros Hready Hkey Hput Hsign%getSignedUrl_Ok Hblob Hget Hbody.
  rewrite (createDiagram_ready _ _ _ _ _ Hready), (render_of_replied _ _ _ _ _ Hkey).
  unfold create_tail. rewrite Hput. cbv zeta. rewrite Hsign, fetchSvgFromS3_run.
  cbn [logged world put_item blobs]. rewrite Hblob, Hget, Hbody.
  eexists. split; [reflexivity|]. split; [reflexivity|].
  cbn [logged after_render trace]. rewrite !map_app, <- !app_assoc. reflexivity.
Qed.

Lemma create_success_witness :
  ∃ st',
    createDiagram Fixture.env_ok (Fixture.create_by "alice") Fixture.st0 =
      (Ok {| statusCode := 201;
             response_body :=
               BCreated "1704067200000-82mvyr" "flow" "2024-01-01T00:00:00.000Z"
                        "https://bucket/diagrams/alice/1704067200000-82mvyr.svg?signed"
                        "<svg/>" 1 |}, st') ∧
    world st' = world Fixture.st1.
Proof.
  destruct (create_success Fixture.env_ok (Fixture.create_by "alice") Fixture.st0
              "alice" Fixture.flow_request Fixture.alice_key
              "https://bucket/diagrams/alice/1704067200000-82mvyr.svg?signed" "<svg/>")
    as (st' & Hrun & Hworld & _).
  - repeat split; reflexivity.
  - exists ("key=" +:+ Fixture.alice_key),
           {| success := true; reply_s3Key := Some Fixture.alice_key |}.
    split; [reflexivity|]. split; [reflexivity|]. split; [reflexivity|].
    split; [reflexivity|discriminate].
  - reflexivity.
  - reflexivity.
  - by_evaluation.
  - reflexivity.
  - reflexivity.
  - exists st'. split; [exact Hrun|].
    unfold Fixture.st1. rewrite Hrun. reflexivity.
Defined.

(** ** Get and Delete without a path parameter *)

(** X5.  For a resolved caller, Get and Delete without a [diagramId] path
    parameter (missing or empty) answer 400 [Missing diagramId] and leave
    the state as it was: no query is sent. *)
Theorem missing_diagramId_is_400 env event st userId :
  getUserId event = Ok userId →
  truthy (pathParameters_diagramId event) = false →
  getDiagram env event st
    = (Ok {| statusCode := 400; response_body := BError "Missing diagramId" |}, st) ∧
  deleteDiagram env event st
    = (Ok {| statusCode := 400; response_body := BError "Missing diagramId" |}, st).
Proof.
  intros Hu Hid. rewrite getDiagram_unfold, deleteDiagram_unfold, Hu, Hid. by split.
Qed.

Lemma missing_diagramId_is_400_witness :
  getDiagram Fixture.env_ok (Fixture.request (Some "alice") "GET" "/diagrams/" None None)
             Fixture.st1
    = (Ok {| statusCode := 400; response_body := BError "Missing diagramId" |}, Fixture.st1).
Proof.
  apply (missing_diagramId_is_400 Fixture.env_ok
           (Fixture.request (Some "alice") "GET" "/diagrams/" None None) Fixture.st1 "alice");
    reflexivity.
Defined.

(** ** List and Get as reads *)

(** X6.  List and Get only read: in every run, failed or not, each
    command they issue is a query or a get that leaves the world as it
    was, so the table and the bucket are unchanged when they return. *)
Theorem list_and_get_only_read env event st :
  (∃ steps, extends st (listDiagrams env event st).2 steps ∧
            reads_only (world st) steps) ∧
  world (listDiagrams env event st).2 = world st ∧
  (∃ steps, extends st (getDiagram env event st).2 steps ∧
            reads_only (world st) steps) ∧
  world (getDiagram env event st).2 = world st.
Proof.
  assert (∀ s : St, extends s s []) as Hnil
    by (intros s; unfold extends; by rewrite app_nil_r).
  split; [|split; [apply listDiagrams_world|split; [|apply getDiagram_world]]].
  - destruct (listDiagrams_unfold env event st) as (steps & Hreads & ->).
    destruct (getUserId event) as [userId|e|];
      [|exists []; split; [apply Hnil|constructor]..].
    destruct (sdk_fault env _).
    { exists [{| action := list_command userId; after := world st |}].
      split; [reflexivity|]. by repeat constructor. }
    exists ({| action := list_command userId; after := world st |} :: steps).
    split; [reflexivity|]. constructor; [by split|exact Hreads].
  - rewrite getDiagram_unfold.
    destruct (getUserId event) as [userId|e|];
      [|exists []; split; [apply Hnil|constructor]..].
    destruct (negb _); [exists []; split; [apply Hnil|constructor]|]. cbv zeta.
    assert (∃ steps,
              extends st (logged (locate_command userId
                                    (default EmptyString (pathParameters_diagramId event)))
                                 (world st) st) steps ∧
              reads_only (world st) steps) as Hquery.
    { eexists [_]. split; [reflexivity|]. by repeat constructor. }
    destruct (sdk_fault env _); [exact Hquery|].
    destruct (located _ _ _ _) as [|item rest]; [exact Hquery|].
    destruct (presigner env _); [|exact Hquery].
    rewrite fetchSvgFromS3_run.
    assert (∃ steps,
              extends st
                (logged (S3Get (s3Key item)) (world st)
                   (logged (locate_command userId
                              (default EmptyString (pathParameters_diagramId event)))
                           (world st) st)) steps ∧
              reads_only (world st) steps) as Hfetch.
    { eexists [_; _]. split; [unfold extends; simpl; by rewrite <- app_assoc|].
      by repeat constructor. }
    simpl. destruct (blobs (world st) !! s3Key item); [|exact Hfetch].
    destruct (sdk_fault env _); [exact Hfetch|].
    destruct (s3_body_missing env _); exact Hfetch.
Qed.

(** X7.  For a resolved caller, List answers 200 with the entries [ds]
    exactly when the query succeeds and [ds] describes, row by row and in
    the order of the query (descending sort key), every row of the page
    the query returned: the first page of the caller's partition, which
    is the whole partition only when it fits in one page.  Each entry
    carries the row's id, type, timestamp and metadata, the signed URL of
    the row's key and the content the bucket holds under that key. *)
Theorem list_succeeds_iff env event st userId ds :
  getUserId event = Ok userId →
  (listDiagrams env event st).1
    = Ok {| statusCode := 200; response_body := BDiagrams ds |} ↔
  sdk_fault env (list_command userId) = None ∧
  Forall2 (shown env (world st)) (listed_page env userId (world st)) ds.
Proof.
  intros Hu. destruct (listDiagrams_unfold env event st) as (steps & _ & ->).
  rewrite Hu. destruct (sdk_fault env _) as [e|].
  { simpl. split; [discriminate|by intros [? _]]. }
  cbn [fst]. rewrite list_outcome_200. split; [by split|by intros [_ ?]].
Qed.

Lemma list_succeeds_iff_witness :
  (listDiagrams Fixture.env_small_page (Fixture.list_by "alice") Fixture.st2).1
    = Ok {| statusCode := 200; response_body := BDiagrams [Fixture.alice_second_view] |}.
Proof.
  apply (list_succeeds_iff Fixture.env_small_page (Fixture.list_by "alice") Fixture.st2
           "alice").
  - reflexivity.
  - split; [reflexivity|].
    assert (listed_page Fixture.env_small_page "alice" (world Fixture.st2)
            = [new_item Fixture.env_ok' "alice" Fixture.flow_request
                 "diagrams/alice/1704067200000-q7pabc.svg"]) as -> by by_evaluation.
    repeat constructor.
    exists "https://bucket/diagrams/alice/1704067200000-q7pabc.svg?signed", "<svg/>".
    split; [reflexivity|]. split; [by_evaluation|]. by repeat split.
Defined.

(** X8.  List is all or nothing.  For a resolved caller, when one row of
    the page the query returned cannot be shown (its URL cannot be
    signed, the bucket does not hold its key, the get fails or returns
    no body), List answers 500 and returns no entry at all, not even for
    the rows that could be shown; the message is the failure of one of
    the rows, or that of the query. *)
Theorem list_fails_on_one_bad_row env event st userId it :
  getUserId event = Ok userId →
  it ∈ listed_page env userId (world st) →
  ((∃ e, getSignedUrl env (s3Key it) = Throw e) ∨
   blobs (world st) !! s3Key it = None ∨
   is_Some (sdk_fault env (S3Get (s3Key it))) ∨
   s3_body_missing env (s3Key it) = true) →
  ∃ message st',
    listDiagrams env event st
      = (Ok {| statusCode := 500;
               response_body := BFailure "Failed to list diagrams" message |}, st') ∧
    (sdk_fault env (list_command userId) = Some message ∨
     ∃ it', it' ∈ listed_page env userId (world st) ∧
            described env (world st) it' = Throw message).
Proof.
  intros Hu Hin Hbad. destruct (listDiagrams_unfold env event st) as (steps & _ & ->).
  rewrite Hu.
  destruct (sdk_fault env (list_command userId)) as [e|];
    [do 2 eexists; split; [reflexivity|by left]|].
  generalize (list_outcome_settles env (world st) (listed_page env userId (world st))).
  unfold list_outcome.
  destruct (promise_all env _) as [ds|e|] eqn:Hall; intros Hsettles; [| |done].
  - exfalso. apply promise_all_Ok, described_all_Ok in Hall.
    apply list_elem_of_lookup_1 in Hin as [i Hi].
    destruct (Forall2_lookup_l _ _ _ _ _ Hall Hi)
      as (d & _ & url & svg & Hsign & Hblob & Hget & Hbody & _).
    destruct Hbad as [[e He]|[Hnone|[[e He]|Hmissing]]]; congruence.
  - do 2 eexists. split; [reflexivity|]. right.
    apply promise_all_Throw, list_elem_of_fmap in Hall as (it' & Hit' & Hin').
    by exists it'.
Qed.

Lemma list_fails_on_one_bad_row_witness :
  ∃ message st',
    listDiagrams Fixture.env_ok (Fixture.list_by "alice") Fixture.st2_blob_lost
      = (Ok {| statusCode := 500;
               response_body := BFailure "Failed to list diagrams" message |}, st') ∧
    (sdk_fault Fixture.env_ok (list_command "alice") = Some message ∨
     ∃ it', it' ∈ listed_page Fixture.env_ok "alice" (world Fixture.st2_blob_lost) ∧
            described Fixture.env_ok (world Fixture.st2_blob_lost) it' = Throw message).
Proof.
  apply (list_fails_on_one_bad_row Fixture.env_ok (Fixture.list_by "alice")
           Fixture.st2_blob_lost "alice" Fixture.alice_item).
  - reflexivity.
  - assert (listed_page Fixture.env_ok "alice" (world Fixture.st2_blob_lost)
            = [new_item Fixture.env_ok' "alice" Fixture.flow_request
                 "diagrams/alice/1704067200000-q7pabc.svg"; Fixture.alice_item]) as ->
      by by_evaluation.
    right. left.
  - right. left. by_evaluation.
Defined.

(** ** Delete *)

(** X9.  Delete changes nothing but the diagram it located: in every
    run either the world is as it was, or the blob under the located
    row's key is gone and the table is either as it was or lacks exactly
    that row.  It never adds a row or a blob. *)
Theorem delete_touches_one_diagram env event st :
  world (deleteDiagram env event st).2 = world st ∨
  ∃ userId item rest,
    getUserId event = Ok userId ∧
    locate userId (default EmptyString (pathParameters_diagramId event)) (world st)
      = item :: rest ∧
    blobs (world (deleteDiagram env event st).2) = delete (s3Key item) (blobs (world st)) ∧
    (catalog (world (deleteDiagram env event st).2) = catalog (world st) ∨
     catalog (world (deleteDiagram env event st).2)
       = delete (PK item, SK item) (catalog (world st))).
Proof.
  rewrite deleteDiagram_unfold.
  destruct (getUserId event) as [userId| |]; [|by left..].
  destruct (negb _); [by left|]. cbv zeta.
  destruct (sdk_fault env (locate_command _ _)); [by left|].
  destruct (located _ _ _ _) as [|item rest] eqn:Hloc; [by left|].
  destruct (located_head _ _ _ _ _ _ Hloc) as [rest' Hwhole].
  destruct (sdk_fault env (S3Delete _)); [by left|].
  right. exists userId, item, rest'.
  destruct (sdk_fault env (DdbDelete _ _)); simpl; repeat split; auto.
Qed.

(** X10.  The successful run of Delete.  For a resolved caller and a
    diagram the query locates (a row with that id among the rows of the
    first page of the caller's partition), when the three commands
    succeed Delete answers 200, having removed the blob and the row of
    the first located row.  The blob need not exist: deleting a key the
    bucket does not hold succeeds, so a Delete that failed half way can
    be repeated. *)
Theorem delete_success env event st userId diagramId item rest :
  getUserId event = Ok userId →
  pathParameters_diagramId event = Some diagramId →
  diagramId ≠ EmptyString →
  located env userId diagramId (world st) = item :: rest →
  sdk_fault env (locate_command userId diagramId) = None →
  sdk_fault env (S3Delete (s3Key item)) = None →
  sdk_fault env (DdbDelete (PK item) (SK item)) = None →
  ∃ st',
    deleteDiagram env event st
      = (Ok {| statusCode := 200;
               response_body := BMessage "Diagram deleted successfully" |}, st') ∧
    world st' = delete_item (PK item) (SK item) (delete_blob (s3Key item) (world st)) ∧
    map action (trace st') =
      (map action (trace st) ++
       [locate_command userId diagramId; S3Delete (s3Key item);
        DdbDelete (PK item) (SK item)])%list.
Proof.
  intros Hu Hid Hne Hloc Hq Hs3 Hrow.
  assert (truthy (Some diagramId) = true) as Ht by (by destruct diagramId).
  rewrite deleteDiagram_unfold, Hu, Hid, Ht. simpl. rewrite Hq, Hloc, Hs3, Hrow.
  eexists. split; [reflexivity|]. split; [reflexivity|].
  cbn [logged trace]. rewrite !map_app, <- !app_assoc. reflexivity.
Qed.

Lemma delete_success_witness :
  ∃ st',
    deleteDiagram Fixture.env_ok (Fixture.delete_by "alice" "1704067200000-82mvyr")
                  Fixture.st_half_deleted
      = (Ok {| statusCode := 200;
               response_body := BMessage "Diagram deleted successfully" |}, st') ∧
    catalog (world st') = ∅.
Proof.
  destruct (delete_success Fixture.env_ok (Fixture.delete_by "alice" "1704067200000-82mvyr")
              Fixture.st_half_deleted "alice" "1704067200000-82mvyr" Fixture.alice_item [])
    as (st' & Hrun & Hworld & _).
  - reflexivity.
  - reflexivity.
  - discriminate.
  - by_evaluation.
  - reflexivity.
  - reflexivity.
  - reflexivity.
  - exists st'. split; [exact Hrun|]. rewrite Hworld. by_evaluation.
Defined.

Lemma StronglySorted_strict (l : list Item) :
  StronglySorted SK_le l → NoDup (SK <$> l) → StronglySorted SK_lt l.
Proof.
  induction 1 as [|x l Hs IH Hx]; intros Hnd; [constructor|].
  rewrite fmap_cons in Hnd. apply NoDup_cons in Hnd as [Hnotin Hnd].
  constructor; [by apply IH|].
  rewrite Forall_forall in Hx. apply Forall_forall. intros y Hy. split; [by apply Hx|].
  intros Heq. apply Hnotin. rewrite Heq. apply list_elem_of_fmap. by exists y.
Qed.

Lemma StronglySorted_filter {A} (R : relation A) (P : A → Prop) `{∀ x, Decision (P x)}
    (l : list A) :
  StronglySorted R l → StronglySorted R (filter P l).
Proof.
  induction 1 as [|x l Hs IH Hx]; [constructor|].
  rewrite filter_cons. destruct (decide (P x)); [|exact IH].
  constructor; [exact IH|].
  rewrite Forall_forall in Hx. apply Forall_forall.
  intros y [_ Hy]%list_elem_of_filter. by apply Hx.
Qed.

Lemma locate_sorted userId wanted w : StronglySorted SK_lt (locate userId wanted w).
Proof.
  unfold locate, run_query. apply StronglySorted_filter.
  apply StronglySorted_strict; [apply partition_of_sorted|apply partition_of_NoDup_SK].
Qed.

Lemma elem_of_locate_matches userId wanted w it :
  it ∈ locate userId wanted w ↔ matches userId wanted w it.
Proof. apply elem_of_locate. Qed.

(** X11.  When several rows of the caller carry the same diagram id, Get
    shows the oldest one: a 200 from Get describes a row of the caller's
    partition that carries the requested id, with the content the bucket
    holds under that row's key, and every other such row has a strictly
    greater sort key. *)
Theorem get_shows_oldest_match env event st userId wanted d st' :
  getUserId event = Ok userId →
  pathParameters_diagramId event = Some wanted →
  getDiagram env event st
    = (Ok {| statusCode := 200; response_body := BDiagram d |}, st') →
  ∃ item,
    matches userId wanted (world st) item ∧
    shown env (world st) item d ∧
    ∀ it, matches userId wanted (world st) it → it = item ∨ SK_lt item it.
Proof.
  intros Hu Hid. rewrite getDiagram_unfold, Hu, Hid.
  destruct (negb _); [discriminate|]. cbv zeta. simpl default.
  destruct (sdk_fault env _); [discriminate|].
  pose proof (locate_sorted userId wanted (world st)) as Hsorted.
  pose proof (elem_of_locate_matches userId wanted (world st)) as Hmem.
  destruct (located env userId wanted (world st)) as [|item page] eqn:Hpage; [discriminate|].
  destruct (located_head _ _ _ _ _ _ Hpage) as [rest Hwhole]. rewrite Hwhole in *.
  destruct (presigner env (s3Key item)) as [url|e] eqn:Hsign; [|discriminate].
  rewrite fetchSvgFromS3_run. simpl.
  destruct (blobs (world st) !! s3Key item) as [svg|] eqn:Hblob; [|discriminate].
  destruct (sdk_fault env (S3Get _)) eqn:Hget; [discriminate|].
  destruct (s3_body_missing env _) eqn:Hbody; [discriminate|].
  intros [= <- <-]. exists item. split; [apply Hmem; left|]. split.
  - exists url, svg. by rewrite getSignedUrl_Ok.
  - intros it [->|Hin]%Hmem%elem_of_cons; [by left|right].
    apply StronglySorted_inv in Hsorted as [_ Hhd].
    rewrite Forall_forall in Hhd. by apply Hhd.
Qed.

Lemma get_shows_oldest_match_witness :
  ∃ item,
    matches "alice" "1704067200001-82mvyr" (world Fixture.st_twins) item ∧
    shown Fixture.env_ok (world Fixture.st_twins) item Fixture.older_twin_view ∧
    matches "alice" "1704067200001-82mvyr" (world Fixture.st_twins) Fixture.younger_twin ∧
    SK_lt item Fixture.younger_twin.
Proof.
  destruct (get_shows_oldest_match Fixture.env_ok
              (Fixture.get_by "alice" "1704067200001-82mvyr") Fixture.st_twins "alice"
              "1704067200001-82mvyr" Fixture.older_twin_view
              (getDiagram Fixture.env_ok
                 (Fixture.get_by "alice" "1704067200001-82mvyr") Fixture.st_twins).2)
    as (item & Hmatch & Hshown & Holdest).
  - reflexivity.
  - reflexivity.
  - by_evaluation.
  - assert (matches "alice" "1704067200001-82mvyr" (world Fixture.st_twins)
              Fixture.younger_twin) as Hyounger.
    { split; [reflexivity|]. split; [by_evaluation|reflexivity]. }
    exists item. split; [exact Hmatch|]. split; [exact Hshown|]. split; [exact Hyounger|].
    destruct (Holdest _ Hyounger) as [<-|Hlt]; [|exact Hlt].
    destruct Hshown as (url & svg & _ & _ & _ & _ & Hview). discriminate.
Defined.

(** X12.  Delete, then Get.  Once Delete has answered 200 for a diagram
    id that exactly one row of the caller carried, no row of the caller
    carries that id any more, the bucket no longer holds the row's key,
    and Get and Delete for that id answer 404 (the query succeeding). *)
Theorem delete_then_not_found env env' event st st' userId wanted item :
  getUserId event = Ok userId →
  pathParameters_diagramId event = Some wanted →
  locate userId wanted (world st) = [item] →
  deleteDiagram env event st
    = (Ok {| statusCode := 200;
             response_body := BMessage "Diagram deleted successfully" |}, st') →
  sdk_fault env' (locate_command userId wanted) = None →
  absent userId wanted (world st') ∧
  blobs (world st') !! s3Key item = None ∧
  (getDiagram env' event st').1
    = Ok {| statusCode := 404; response_body := BError "Diagram not found" |} ∧
  (deleteDiagram env' event st').1
    = Ok {| statusCode := 404; response_body := BError "Diagram not found" |}.
Proof.
  intros Hu Hid Hloc Hrun Hq.
  pose proof (elem_of_locate_matches userId wanted (world st)) as Hmem.
  rewrite Hloc in Hmem.
  rewrite deleteDiagram_unfold, Hu, Hid in Hrun.
  destruct (truthy (Some wanted)) eqn:Ht; [|discriminate]. simpl in Hrun.
  destruct (sdk_fault env (locate_command _ _)); [discriminate|].
  destruct (located env userId wanted (world st)) as [|item' page] eqn:Hpage;
    [discriminate|].
  destruct (located_head _ _ _ _ _ _ Hpage) as [rest Hwhole].
  assert (item' = item) as -> by congruence.
  destruct (sdk_fault env (S3Delete _)); [discriminate|].
  destruct (sdk_fault env (DdbDelete _ _)); [discriminate|].
  injection Hrun as <-.
  assert (absent userId wanted
            (delete_item (PK item) (SK item) (delete_blob (s3Key item) (world st))))
    as Habs.
  { intros sk a Hrow Hd. cbn [delete_item delete_blob catalog] in Hrow.
    apply lookup_delete_Some in Hrow as [Hk Hrow]. apply Hk.
    assert (matches userId wanted (world st) (item_of (partition_key userId, sk) a))
      as Hin by (repeat split; simpl; [by rewrite attrs_of_item_of|done]).
    apply Hmem, list_elem_of_singleton in Hin. by rewrite <- Hin. }
  split; [exact Habs|]. split; [simpl; apply lookup_delete_eq|].
  rewrite getDiagram_unfold, deleteDiagram_unfold, Hu, Hid, Ht. simpl.
  rewrite Hq. by rewrite (located_absent env' _ _ _ Habs).
Qed.

Lemma delete_then_not_found_witness :
  (getDiagram Fixture.env_ok (Fixture.delete_by "alice" "1704067200000-82mvyr")
     (deleteDiagram Fixture.env_ok
        (Fixture.delete_by "alice" "1704067200000-82mvyr") Fixture.st1).2).1
    = Ok {| statusCode := 404; response_body := BError "Diagram not found" |}.
Proof.
  destruct (delete_then_not_found Fixture.env_ok Fixture.env_ok
              (Fixture.delete_by "alice" "1704067200000-82mvyr") Fixture.st1
              (deleteDiagram Fixture.env_ok
                 (Fixture.delete_by "alice" "1704067200000-82mvyr") Fixture.st1).2
              "alice" "1704067200000-82mvyr" Fixture.alice_item)
    as (_ & _ & Hget & _).
  - reflexivity.
  - reflexivity.
  - by_evaluation.
  - by_evaluation.
  - reflexivity.
  - exact Hget.
Defined.

(** X13.  A Delete that fails half way.  When the query locates a row,
    the blob deletion succeeds and the row deletion fails, Delete
    answers 500 with the table's error; the row is still in the table
    but the blob it references is gone, and from then on a Get whose
    query locates that row answers 500 instead of the diagram, whether
    or not the bucket and the signing work. *)
Theorem delete_half_way env env' event st userId wanted item rest rest' e :
  getUserId event = Ok userId →
  pathParameters_diagramId event = Some wanted →
  wanted ≠ EmptyString →
  located env userId wanted (world st) = item :: rest →
  located env' userId wanted (world st) = item :: rest' →
  sdk_fault env (locate_command userId wanted) = None →
  sdk_fault env (S3Delete (s3Key item)) = None →
  sdk_fault env (DdbDelete (PK item) (SK item)) = Some e →
  ∃ st',
    deleteDiagram env event st
      = (Ok {| statusCode := 500;
               response_body := BFailure "Failed to delete diagram" e |}, st') ∧
    catalog (world st') = catalog (world st) ∧
    blobs (world st') = delete (s3Key item) (blobs (world st)) ∧
    ∃ message,
      (getDiagram env' event st').1
        = Ok {| statusCode := 500;
                response_body := BFailure "Failed to get diagram" message |}.
Proof.
  intros Hu Hid Hne Hloc Hloc' Hq Hs3 Hrow.
  assert (truthy (Some wanted) = true) as Ht by (by destruct wanted).
  rewrite deleteDiagram_unfold, Hu, Hid, Ht. simpl. rewrite Hq, Hloc, Hs3, Hrow.
  eexists. split; [reflexivity|]. split; [reflexivity|]. split; [reflexivity|].
  rewrite getDiagram_unfold, Hu, Hid, Ht. simpl.
  destruct (sdk_fault env' _); [by eexists|].
  change (located env' userId wanted (delete_blob (s3Key item) (world st)))
    with (located env' userId wanted (world st)).
  rewrite Hloc'.
  destruct (presigner env' _); [|by eexists].
  rewrite fetchSvgFromS3_run. simpl. rewrite lookup_delete_eq. by eexists.
Qed.

Lemma delete_half_way_witness :
  ∃ message,
    (getDiagram Fixture.env_ok (Fixture.get_by "alice" "1704067200000-82mvyr")
                Fixture.st_half_deleted).1
      = Ok {| statusCode := 500;
              response_body := BFailure "Failed to get diagram" message |}.
Proof.
  destruct (delete_half_way Fixture.env_row_delete_fault Fixture.env_ok
              (Fixture.get_by "alice" "1704067200000-82mvyr") Fixture.st1
              "alice" "1704067200000-82mvyr" Fixture.alice_item [] []
              "ProvisionedThroughputExceededException")
    as (st' & Hrun & _ & _ & message & Hget).
  - reflexivity.
  - reflexivity.
  - discriminate.
  - by_evaluation.
  - by_evaluation.
  - reflexivity.
  - reflexivity.
  - reflexivity.
  - exists message.
    assert (Fixture.st_half_deleted = st') as ->; [|exact Hget].
    unfold Fixture.st_half_deleted.
    change (deleteDiagram Fixture.env_row_delete_fault
              (Fixture.delete_by "alice" "1704067200000-82mvyr") Fixture.st1)
      with (deleteDiagram Fixture.env_row_delete_fault
              (Fixture.get_by "alice" "1704067200000-82mvyr") Fixture.st1).
    by rewrite Hrun.
Defined.

(** ** Create, then read *)

Lemma new_diagramId_nonempty env : new_diagramId env ≠ EmptyString.
Proof. unfold new_diagramId. by destruct (show (Date_now env 0)). Qed.

(** What a 201 from Create tells. *)
Lemma createDiagram_201 env event st response st' :
  createDiagram env event st = (Ok response, st') →
  statusCode response = 201 →
  ∃ userId body key signedUrl svgContent,
    create_ready env event userId body ∧
    replied_key env (payload_for env userId body) (blobs (world st)) key ∧
    response = created env body signedUrl svgContent ∧
    blobs (world st') !! key = Some svgContent ∧
    world st' = put_item (new_item env userId body key)
                  (world (after_render env (payload_for env userId body) st)).
Proof.
  intros Hrun Hstatus.
  destruct (create_ready_dec env event) as [(userId & body & Hready)|Hnot].
  - rewrite (createDiagram_ready _ _ _ _ _ Hready) in Hrun.
    destruct (render_of_run env userId body st) as (r & Hrender & Hr).
    rewrite Hrender in Hrun.
    destruct Hr as [->|[(key & -> & Hkey)|[-> _]]]; [| |discriminate].
    { injection Hrun as <- <-. discriminate. }
    unfold create_tail in Hrun.
    destruct (sdk_fault env (DdbPut _)); [injection Hrun as <- <-; discriminate|].
    cbv zeta in Hrun.
    destruct (presigner env key) as [url|e]; [|injection Hrun as <- <-; discriminate].
    rewrite fetchSvgFromS3_run in Hrun. cbn [logged world put_item blobs] in Hrun.
    destruct (blobs _ !! key) as [svg|] eqn:Hblob;
      [|injection Hrun as <- <-; discriminate].
    destruct (sdk_fault env (S3Get key)); [injection Hrun as <- <-; discriminate|].
    destruct (s3_body_missing env key); [injection Hrun as <- <-; discriminate|].
    injection Hrun as <- <-. exists userId, body, key, url, svg.
    split; [exact Hready|]. split; [exact Hkey|]. split; [reflexivity|].
    split; [exact Hblob|reflexivity].
  - destruct (createDiagram_not_ready env event st Hnot) as (r & Heq & Hr).
    rewrite Heq in Hrun. injection Hrun as <- <-. destruct Hr; congruence.
Qed.

Lemma new_item_matches env userId body key w :
  matches userId (new_diagramId env) (put_item (new_item env userId body key) w)
          (new_item env userId body key).
Proof. repeat split. simpl. apply lookup_insert_eq. Qed.

Lemma located_fits env userId wanted w :
  fits_page env (partition_key userId) true (catalog w) →
  located env userId wanted w = locate userId wanted w.
Proof. apply query_page_fits. Qed.

Lemma listed_page_fits env userId w :
  fits_page env (partition_key userId) false (catalog w) →
  listed_page env userId w = listed userId w.
Proof. apply query_page_fits. Qed.

(** X14.  Create, then Get.  After a 201 from Create, for a caller who
    had no row with the generated id and whose rows now fit in one page
    of the query, a Get by the same caller for the returned id (query,
    signing and fetch succeeding) answers 200 with the very id, type,
    timestamp and content that Create returned. *)
Theorem create_then_get env env' event event' st st' response userId :
  createDiagram env event st = (Ok response, st') →
  statusCode response = 201 →
  getUserId event = Ok userId →
  getUserId event' = Ok userId →
  pathParameters_diagramId event' = Some (new_diagramId env) →
  absent userId (new_diagramId env) (world st) →
  fits_page env' (partition_key userId) true (catalog (world st')) →
  sdk_fault env' (locate_command userId (new_diagramId env)) = None →
  (∀ key, sdk_fault env' (S3Get key) = None ∧ s3_body_missing env' key = false ∧
          ∃ url, getSignedUrl env' key = Ok url) →
  ∃ d st'' signedUrl renderDuration,
    getDiagram env' event' st' = (Ok {| statusCode := 200; response_body := BDiagram d |}, st'') ∧
    response_body response
      = BCreated (v_diagramId d) (v_diagramType d) (v_createdAt d) signedUrl
                 (v_svgContent d) renderDuration.
Proof.
  intros Hrun Hstatus Hu Hu' Hid Habs Hfits Hq Hfine.
  destruct (createDiagram_201 _ _ _ _ _ Hrun Hstatus)
    as (userId0 & body & key & url & svg & Hready & Hkey & -> & Hblob & Hworld).
  assert (userId0 = userId) as -> by (destruct Hready as (? & _); congruence).
  set (item := new_item env userId body key) in *.
  assert (∃ rest, locate userId (new_diagramId env) (world st') = item :: rest)
    as [rest Hloc].
  { pose proof (elem_of_locate_matches userId (new_diagramId env) (world st')) as Hmem.
    destruct (locate userId (new_diagramId env) (world st')) as [|it rest].
    - exfalso. eapply not_elem_of_nil, (Hmem item). rewrite Hworld.
      apply new_item_matches.
    - exists rest. f_equal.
      assert (matches userId (new_diagramId env) (world st') it) as (Hpk & Hrow & Hd)
        by (apply Hmem; left).
      rewrite Hworld in Hrow. cbn [put_item catalog after_render logged world] in Hrow.
      apply lookup_insert_Some in Hrow as [[Hk Ha]|[_ Hrow]].
      + injection Hk as Hk1 Hk2.
        rewrite <- (item_of_attrs_of it), <- (item_of_attrs_of item).
        by rewrite <- Hk1, <- Hk2, Ha.
      + rewrite Hpk in Hrow. by destruct (Habs _ _ Hrow). }
  destruct (Hfine (s3Key item)) as (Hget & Hbody & url' & Hsign%getSignedUrl_Ok).
  assert (truthy (Some (new_diagramId env)) = true) as Ht.
  { pose proof (new_diagramId_nonempty env). by destruct (new_diagramId env). }
  rewrite getDiagram_unfold, Hu', Hid, Ht. simpl.
  rewrite Hq, (located_fits _ _ _ _ Hfits), Hloc, Hsign.
  rewrite fetchSvgFromS3_run. simpl. fold item. 
  change (s3Key item) with key in *. rewrite Hblob, Hget, Hbody.
  do 4 eexists. split; reflexivity.
Qed.

Lemma create_then_get_witness :
  ∃ d st'' signedUrl renderDuration,
    getDiagram Fixture.env_ok (Fixture.get_by "alice" "1704067200000-82mvyr") Fixture.st1
      = (Ok {| statusCode := 200; response_body := BDiagram d |}, st'') ∧
    response_body (created Fixture.env_ok Fixture.flow_request
                     "https://bucket/diagrams/alice/1704067200000-82mvyr.svg?signed"
                     "<svg/>")
      = BCreated (v_diagramId d) (v_diagramType d) (v_createdAt d) signedUrl
                 (v_svgContent d) renderDuration.
Proof.
  apply (create_then_get Fixture.env_ok Fixture.env_ok (Fixture.create_by "alice")
           (Fixture.get_by "alice" "1704067200000-82mvyr") Fixture.st0 Fixture.st1
           _ "alice").
  - by_evaluation.
  - reflexivity.
  - reflexivity.
  - reflexivity.
  - reflexivity.
  - intros sk a Hrow. cbn [Fixture.st0 world catalog] in Hrow.
    by rewrite lookup_empty in Hrow.
  - unfold fits_page.
    assert (partition_of (partition_key "alice") (catalog (world Fixture.st1))
            = [Fixture.alice_item]) as -> by by_evaluation.
    simpl. lia.
  - reflexivity.
  - intros key. split; [reflexivity|]. split; [reflexivity|]. by eexists.
Defined.

(** X15.  Create, then List.  After a 201 from Create, when the caller's
    rows fit in one page of the query, every successful List by the same
    caller contains an entry with the id, type, timestamp and content
    that Create returned. *)
Theorem create_then_list env env' event event' st st' response userId ds st'' :
  createDiagram env event st = (Ok response, st') →
  statusCode response = 201 →
  getUserId event = Ok userId →
  getUserId event' = Ok userId →
  fits_page env' (partition_key userId) false (catalog (world st')) →
  listDiagrams env' event' st'
    = (Ok {| statusCode := 200; response_body := BDiagrams ds |}, st'') →
  ∃ d signedUrl renderDuration,
    d ∈ ds ∧
    response_body response
      = BCreated (v_diagramId d) (v_diagramType d) (v_createdAt d) signedUrl
                 (v_svgContent d) renderDuration.
Proof.
  intros Hrun Hstatus Hu Hu' Hfits Hlist.
  destruct (createDiagram_201 _ _ _ _ _ Hrun Hstatus)
    as (userId0 & body & key & url & svg & Hready & Hkey & -> & Hblob & Hworld).
  assert (userId0 = userId) as -> by (destruct Hready as (? & _); congruence).
  set (item := new_item env userId body key) in *.
  assert (item ∈ listed userId (world st')) as Hin.
  { unfold listed. apply elem_of_run_query. split; [|discriminate].
    apply elem_of_partition_of. split; [reflexivity|].
    rewrite Hworld. apply lookup_insert_eq. }
  assert (Forall2 (shown env' (world st')) (listed userId (world st')) ds) as Hall.
  { destruct (listDiagrams_run _ _ _ _ _ Hlist) as [_ Hshown].
    destruct (Hshown ds eq_refl) as (userId' & Hu'' & Hds).
    assert (userId' = userId) as -> by congruence.
    by rewrite (listed_page_fits _ _ _ Hfits) in Hds. }
  apply list_elem_of_lookup_1 in Hin as [i Hi].
  destruct (Forall2_lookup_l _ _ _ _ _ Hall Hi)
    as (d & Hd & url' & svg' & _ & Hblob' & _ & _ & ->).
  change (s3Key item) with key in Hblob'. rewrite Hblob in Hblob'. injection Hblob' as <-.
  exists (view_of item url' svg), url, (Date_now env 2 - Date_now env 1).
  split; [by apply list_elem_of_lookup_2 in Hd|reflexivity].
Qed.

Lemma create_then_list_witness :
  ∃ d signedUrl renderDuration,
    d ∈ [Fixture.alice_second_view; Fixture.alice_first_view] ∧
    response_body (created Fixture.env_ok' Fixture.flow_request
                     "https://bucket/diagrams/alice/1704067200000-q7pabc.svg?signed"
                     "<svg/>")
      = BCreated (v_diagramId d) (v_diagramType d) (v_createdAt d) signedUrl
                 (v_svgContent d) renderDuration.
Proof.
  apply (create_then_list Fixture.env_ok' Fixture.env_ok (Fixture.create_by "alice")
           (Fixture.list_by "alice") Fixture.st1 Fixture.st2 _ "alice" _
           (listDiagrams Fixture.env_ok (Fixture.list_by "alice") Fixture.st2).2).
  - by_evaluation.
  - reflexivity.
  - reflexivity.
  - reflexivity.
  - unfold fits_page.
    assert (length (partition_of (partition_key "alice") (catalog (world Fixture.st2)))
            = 2%nat) as -> by by_evaluation.
    simpl. lia.
  - by_evaluation.
Defined.

(** ** An invariant of the table *)

Lemma getUserId_nonempty event userId : getUserId event = Ok userId → userId ≠ EmptyString.
Proof.
  unfold getUserId. destruct (claims event) as [c|]; [|discriminate].
  destruct (truthy (sub c)) eqn:Ht; [|discriminate]. simpl.
  destruct (truthy_Some _ Ht) as (s & -> & Hne). by intros [= <-].
Qed.

Lemma createDiagram_row env event st res st' :
  createDiagram env event st = (res, st') →
  catalog (world st') = catalog (world st) ∨
  ∃ userId body key,
    create_ready env event userId body ∧
    key ≠ EmptyString ∧
    catalog (world st') = catalog (put_item (new_item env userId body key) (world st)).
Proof.
  intros Hrun.
  destruct (create_ready_dec env event) as [(userId & body & Hready)|Hnot].
  - rewrite (createDiagram_ready _ _ _ _ _ Hready) in Hrun.
    destruct (render_of_run env userId body st) as (r & Hrender & Hr).
    rewrite Hrender in Hrun.
    destruct Hr as [->|[(key & -> & Hkey)|[-> _]]]; [| |inversion Hrun; subst; by left].
    + inversion Hrun; subst. by left.
    + destruct (create_tail_run _ _ _ _ _ _ _ Hrun) as (w & rest & _ & _ & Hw & Hput).
      rewrite Hw. destruct Hput as [(e & _ & -> & _)|(_ & ->)]; [by left|].
      right. exists userId, body, key. split; [done|]. split; [|done].
      by destruct Hkey as (? & ? & _ & _ & _ & _ & ?).
  - destruct (createDiagram_not_ready env event st Hnot) as (response & Heq & _).
    rewrite Heq in Hrun. inversion Hrun; subst. by left.
Qed.

Lemma new_item_well_formed env event userId body key :
  create_ready env event userId body →
  key ≠ EmptyString →
  row_well_formed (PK (new_item env userId body key), SK (new_item env userId body key))
                  (attrs_of (new_item env userId body key)).
Proof.
  intros (Hu & _ & _ & _ & Ht) Hkey. split; [|split; [|split; [|split]]]; simpl.
  - exists userId. split; [by apply (getUserId_nonempty event)|reflexivity].
  - reflexivity.
  - apply new_diagramId_nonempty.
  - destruct (truthy_Some _ Ht) as (s & -> & Hne). exact Hne.
  - exact Hkey.
Qed.

Lemma handler_keeps_well_formed env event st :
  table_well_formed (catalog (world st)) →
  table_well_formed (catalog (world (handler env event st).2)).
Proof.
  intros Hwf. rewrite handler_unfold.
  repeat match goal with
         | |- context [if ?b then _ else _] => destruct b
         end.
  - destruct (createDiagram env event st) as [res st'] eqn:Hrun. cbn [snd].
    destruct (createDiagram_row _ _ _ _ _ Hrun)
      as [->|(userId & body & key & Hready & Hkey & ->)]; [exact Hwf|].
    intros k a Hl. cbn [put_item catalog] in Hl.
    apply lookup_insert_Some in Hl as [[<- <-]|[_ Hl]]; [|by apply Hwf].
    by apply (new_item_well_formed env event).
  - by rewrite listDiagrams_world.
  - by rewrite getDiagram_world.
  - destruct (deleteDiagram_catalog env event st)
      as [->|(userId & item & rest & _ & _ & ->)]; [exact Hwf|].
    intros k a [_ Hl]%lookup_delete_Some. by apply Hwf.
  - exact Hwf.
Qed.

(** X16.  Whatever requests are served, in whatever environments, a
    table whose rows are well formed keeps well-formed rows: every row
    lies in the partition [USER#] of a non-empty owner id, its sort key
    is [DIAGRAM#], its own timestamp, [#] and its own id, and its id,
    type and content key are not empty.  The empty table is well formed,
    so this holds in every state the handler can reach. *)
Theorem table_stays_well_formed requests st :
  table_well_formed (catalog (world st)) →
  table_well_formed (catalog (world (serve requests st))).
Proof.
  revert st. induction requests as [|[env event] requests IH]; intros st Hwf; [exact Hwf|].
  simpl. apply IH. by apply handler_keeps_well_formed.
Qed.

Lemma table_stays_well_formed_witness :
  table_well_formed
    (catalog (world (serve [(Fixture.env_ok, Fixture.create_by "alice");
                            (Fixture.env_ok', Fixture.create_by "alice");
                            (Fixture.env_row_delete_fault,
                             Fixture.delete_by "alice" "1704067200000-82mvyr");
                            (Fixture.env_ok, Fixture.list_by "alice")]
                           Fixture.st0))).
Proof.
  apply table_stays_well_formed.
  intros k a Hl. cbn [Fixture.st0 world catalog] in Hl. by rewrite lookup_empty in Hl.
Defined.

(** ** The diagnostic pattern *)

Lemma drop_prefix_Some p s r : drop_prefix p s = Some r → s = p +:+ r.
Proof.
  revert s. induction p as [|a p IH]; intros [|b s]; simpl; try discriminate.
  - by intros [= <-].
  - by intros [= <-].
  - destruct (Ascii.eqb_spec a b) as [->|]; [|discriminate].
    intros Hr. by rewrite (IH _ Hr).
Qed.

Lemma drop_prefix_app p r : drop_prefix p (p +:+ r) = Some r.
Proof.
  induction p as [|a p IH]; simpl; [by destruct r|]. by rewrite Ascii.eqb_refl.
Qed.

Lemma span_not_quote_spec s run rest :
  span_not_quote s = (run, rest) →
  s = run +:+ rest ∧ quote_free run ∧
  (rest = EmptyString ∨ ∃ t, rest = String dquote t).
Proof.
  revert run rest. induction s as [|c s IH]; intros run rest; simpl.
  - intros [= <- <-]. split; [reflexivity|]. split; [constructor|by left].
  - destruct (Ascii.eqb_spec c dquote) as [->|Hc].
    + intros [= <- <-]. split; [reflexivity|]. split; [constructor|right; by eexists].
    + destruct (span_not_quote s) as [run' rest'].
      destruct (IH _ _ eq_refl) as (-> & Hfree & Hrest).
      intros [= <- <-]. split; [reflexivity|]. split; [by constructor|exact Hrest].
Qed.

Lemma span_not_quote_app g post :
  quote_free g → span_not_quote (g +:+ String dquote post) = (g, String dquote post).
Proof.
  unfold quote_free. induction g as [|c g IH]; simpl; intros Hfree.
  - reflexivity.
  - apply Forall_cons in Hfree as [Hc Hfree].
    destruct (Ascii.eqb_spec c dquote) as [->|_]; [done|]. by rewrite IH.
Qed.

Lemma match_here_sound s g :
  match_here s = Some g →
  g ≠ EmptyString ∧ quote_free g ∧ ∃ post, s = message_key +:+ g +:+ String dquote post.
Proof.
  unfold match_here.
  destruct (drop_prefix message_key s) as [r|] eqn:Hkey; [|discriminate].
  apply drop_prefix_Some in Hkey as ->.
  destruct (span_not_quote r) as [run rest] eqn:Hspan.
  destruct (span_not_quote_spec _ _ _ Hspan) as (-> & Hfree & Hrest).
  destruct run as [|c run]; [discriminate|].
  destruct rest as [|q rest]; [discriminate|].
  intros [= <-]. split; [discriminate|]. split; [exact Hfree|].
  destruct Hrest as [|[t [= -> ->]]]; [discriminate|]. by exists t.
Qed.

(** X17.  What the pattern of [renderD2Diagram] extracts is a real
    diagnostic: it is not empty, contains no double quote, and stands in
    the error message right after the quoted key [message], a colon and
    an opening quote, and right before a closing quote. *)
Theorem match_message_sound s g :
  match_message s = Some g →
  g ≠ EmptyString ∧ quote_free g ∧
  ∃ pre post, s = pre +:+ message_key +:+ g +:+ String dquote post.
Proof.
  induction s as [|c s IH].
  - simpl. discriminate.
  - cbn [match_message].
    destruct (match_here (String c s)) eqn:Hh.
    + intros [= <-]. destruct (match_here_sound _ _ Hh) as (Hne & Hfree & post & Hs).
      split; [exact Hne|]. split; [exact Hfree|]. by exists EmptyString, post.
    + intros Hm. destruct (IH Hm) as (Hne & Hfree & pre & post & ->).
      split; [exact Hne|]. split; [exact Hfree|]. by exists (String c pre), post.
Qed.

Lemma match_message_sound_witness :
  ∃ pre post,
    "D2 service returned status 500: " +:+ Fixture.diagnostic_data "unexpected token"
      = pre +:+ message_key +:+ "unexpected token" +:+ String dquote post.
Proof.
  destruct (match_message_sound
              ("D2 service returned status 500: "
               +:+ Fixture.diagnostic_data "unexpected token") "unexpected token")
    as (_ & _ & Hfound).
  - reflexivity.
  - exact Hfound.
Defined.

(** X18.  The pattern misses nothing: whenever the error message
    contains, anywhere, the quoted key [message], a colon, an opening
    quote, a non-empty text without double quote and a closing quote, a
    diagnostic is extracted. *)
Theorem match_message_complete pre g post :
  g ≠ EmptyString →
  quote_free g →
  is_Some (match_message (pre +:+ message_key +:+ g +:+ String dquote post)).
Proof.
  intros Hne Hfree.
  assert (match_here (message_key +:+ g +:+ String dquote post) = Some g) as Hhere.
  { unfold match_here. rewrite drop_prefix_app, (span_not_quote_app _ _ Hfree).
    by destruct g. }
  induction pre as [|c pre IH].
  - change (EmptyString +:+ ?x) with x.
    destruct (message_key +:+ g +:+ String dquote post) eqn:Hs;
      cbn [match_message]; rewrite Hhere; by eexists.
  - change (String c pre +:+ ?x) with (String c (pre +:+ x)).
    cbn [match_message]. destruct (match_here (String c _)); [by eexists|exact IH].
Qed.

Lemma match_message_complete_witness :
  is_Some (match_message
             ("status 500: {" +:+ message_key +:+ "bad arrow" +:+ String dquote "}")).
Proof.
  apply (match_message_complete "status 500: {" "bad arrow" "}").
  - discriminate.
  - repeat constructor; discriminate.
Defined.

(** ** The fallback error of the render step *)

(** X19.  When the rendering call fails and its error offers nothing to
    extract (it does not mention a 500 status, or it carries no quoted
    message: a timeout, a malformed 200 reply, another status), Create
    answers 500 with the fixed text [Diagram rendering failed. Please
    check your D2 syntax and try again.] in place of the error, having
    issued the render command only; the table is as it was. *)
Theorem create_render_fallback env event st userId body e st1 :
  create_ready env event userId body →
  callD2Service env (default EmptyString (d2Text body)) (format_of body) userId
                (new_diagramId env) st = (Throw e, st1) →
  includes status_500_marker e = false ∨ match_message e = None →
  createDiagram env event st
    = (Ok {| statusCode := 500;
             response_body :=
               BFailure "Failed to create diagram"
                 "Diagram rendering failed. Please check your D2 syntax and try again." |},
       st1) ∧
  catalog (world st1) = catalog (world st) ∧
  map action (trace st1)
    = (map action (trace st) ++ [CallRender (payload_for env userId body)])%list.
Proof.
  intros Hready Hcall Hnothing.
  destruct (callD2Service_run env (default EmptyString (d2Text body)) (format_of body)
              userId (new_diagramId env) st) as (r & Hrun & _).
  rewrite Hcall in Hrun. injection Hrun as _ Hst1.
  rewrite (createDiagram_ready _ _ _ _ _ Hready).
  unfold render_of, renderD2Diagram, try_catch, bind, status_500_marker in *.
  rewrite Hcall.
  destruct (includes "D2 service returned status 500" e).
  - destruct (match_message e); [destruct Hnothing; discriminate|].
    split; [reflexivity|]. rewrite Hst1. split; [reflexivity|].
    unfold after_render, logged. simpl. by rewrite map_app.
  - split; [reflexivity|]. rewrite Hst1. split; [reflexivity|].
    unfold after_render, logged. simpl. by rewrite map_app.
Qed.

Lemma create_render_fallback_witness :
  (createDiagram Fixture.env_timeout (Fixture.create_by "alice") Fixture.st1).1
    = Ok {| statusCode := 500;
            response_body :=
              BFailure "Failed to create diagram"
                "Diagram rendering failed. Please check your D2 syntax and try again." |}.
Proof.
  destruct (create_render_fallback Fixture.env_timeout (Fixture.create_by "alice")
              Fixture.st1 "alice" Fixture.flow_request "D2 service request timed out"
              (callD2Service Fixture.env_timeout "x->y" "svg" "alice"
                 (new_diagramId Fixture.env_timeout) Fixture.st1).2)
    as (Hrun & _).
  - repeat split; reflexivity.
  - by_evaluation.
  - left. reflexivity.
  - by rewrite Hrun.
Defined.

(** ** A rendering exchange that never settles *)

Lemma callD2Service_stalled env d f u i st :
  stalled env (payload_of d f u i) (blobs (world st)) →
  callD2Service env d f u i st = (Pending, after_render env (payload_of d f u i) st).
Proof.
  unfold stalled, callD2Service, after_render, bind, get_world, record_step, payload_of,
    logged.
  simpl. destruct (d2_worker env _ (blobs (world st))) as [outcome b']. simpl.
  by intros ->.
Qed.

Lemma render_of_stalled env userId body st :
  stalled env (payload_for env userId body) (blobs (world st)) →
  render_of env userId body st
    = (Pending, after_render env (payload_for env userId body) st).
Proof.
  intros Hstall. unfold render_of, renderD2Diagram, try_catch, bind.
  unfold payload_for in *. by rewrite (callD2Service_stalled _ _ _ _ _ _ Hstall).
Qed.

(** X20.  A rendering exchange that never settles (the reply is cut or
    keeps trickling in before its end, so that none of the three events
    the code listens to fires) leaves Create, and the entry point on
    POST [/diagrams], without any response: no status code, no error
    body.  The render call is the only command issued and no row is
    written. *)
Theorem create_never_settles env event st userId body :
  create_ready env event userId body →
  stalled env (payload_for env userId body) (blobs (world st)) →
  createDiagram env event st
    = (Pending, after_render env (payload_for env userId body) st) ∧
  (method event = "POST" → path event = "/diagrams" →
   handler env event st = createDiagram env event st) ∧
  catalog (world (after_render env (payload_for env userId body) st)) = catalog (world st) ∧
  map action (trace (after_render env (payload_for env userId body) st))
    = (map action (trace st) ++ [CallRender (payload_for env userId body)])%list.
Proof.
  intros Hready Hstall. split; [|split; [|split]].
  - by rewrite (createDiagram_ready _ _ _ _ _ Hready), (render_of_stalled _ _ _ _ Hstall).
  - intros Hm Hp. by rewrite handler_unfold, Hm, Hp.
  - reflexivity.
  - cbn [after_render logged trace]. by rewrite map_app.
Qed.

Lemma create_never_settles_witness :
  handler Fixture.env_stalled (Fixture.create_by "alice") Fixture.st1
    = (Pending,
       after_render Fixture.env_stalled
         (payload_for Fixture.env_stalled "alice" Fixture.flow_request) Fixture.st1).
Proof.
  destruct (create_never_settles Fixture.env_stalled (Fixture.create_by "alice") Fixture.st1
              "alice" Fixture.flow_request) as (Hrun & Hroute & _).
  - repeat split; reflexivity.
  - reflexivity.
  - rewrite Hroute; [exact Hrun|reflexivity|reflexivity].
Defined.

(** ** The metadata of the row *)

Lemma json_truthy_false v : json_truthy v = false ↔ v ∈ falsy_values.
Proof.
  unfold falsy_values. split.
  - destruct v as [|b|z|s|l|fields]; simpl; try discriminate.
    + intros _. left.
    + intros ->. right; left.
    + intros Hz%negb_false_iff%Z.eqb_eq. subst z. do 2 right. left.
    + intros Hs%negb_false_iff%String.eqb_eq. subst s. do 3 right. left.
  - intros Hin. repeat (apply elem_of_cons in Hin as [->|Hin]); try reflexivity.
    by apply elem_of_nil in Hin.
Qed.

(** X21.  The metadata Create stores.  After a 201 from Create the table
    holds the new row under the caller's partition key and the sort key
    built from the timestamp and the generated id; that row stores the
    metadata of the request when the request carries a value JavaScript
    takes for true, and the empty object when the request carries no
    metadata or one of [null], [false], [0] and the empty string. *)
Theorem create_stores_metadata env event st response st' userId body :
  createDiagram env event st = (Ok response, st') →
  statusCode response = 201 →
  create_ready env event userId body →
  ∃ a,
    catalog (world st')
      !! ("USER#" +:+ userId, "DIAGRAM#" +:+ toISOString_now env +:+ "#" +:+ new_diagramId env)
      = Some a ∧
    (∀ v, req_metadata body = Some v → v ∉ falsy_values → a_metadata a = v) ∧
    (∀ v, req_metadata body = Some v → v ∈ falsy_values → a_metadata a = JObj []) ∧
    (req_metadata body = None → a_metadata a = JObj []).
Proof.
  intros Hrun Hstatus Hready.
  destruct (createDiagram_201 _ _ _ _ _ Hrun Hstatus)
    as (userId0 & body0 & key & url & svg & Hready0 & _ & _ & _ & Hworld).
  destruct (create_ready_unique _ _ _ _ _ _ Hready Hready0) as [<- <-].
  exists (attrs_of (new_item env userId body key)).
  split; [rewrite Hworld; apply lookup_insert_eq|].
  cbn [attrs_of a_metadata new_item metadata].
  split; [|split].
  - intros v -> Hv. destruct (json_truthy v) eqn:Ht; [reflexivity|].
    by apply json_truthy_false in Ht.
  - intros v -> Hv. apply json_truthy_false in Hv. by rewrite Hv.
  - by intros ->.
Qed.

Lemma create_stores_metadata_witness :
  ∃ a,
    catalog (world (createDiagram Fixture.env_ok (Fixture.create_null_metadata_by "alice")
                      Fixture.st0).2)
      !! ("USER#alice", "DIAGRAM#2024-01-01T00:00:00.000Z#1704067200000-82mvyr") = Some a ∧
    a_metadata a = JObj [].
Proof.
  destruct (create_stores_metadata Fixture.env_ok (Fixture.create_null_metadata_by "alice")
              Fixture.st0
              (created Fixture.env_ok Fixture.null_metadata_request
                 "https://bucket/diagrams/alice/1704067200000-82mvyr.svg?signed" "<svg/>")
              (createDiagram Fixture.env_ok (Fixture.create_null_metadata_by "alice")
                 Fixture.st0).2
              "alice" Fixture.null_metadata_request)
    as (a & Hrow & _ & Hfalsy & _).
  - by_evaluation.
  - reflexivity.
  - repeat split; reflexivity.
  - exists a. split; [exact Hrow|]. apply (Hfalsy JNull); [reflexivity|]. left.
Defined.

(** ** A diagram beyond the first page *)

(** X22.  Get and Delete look at the first page only.  For a resolved
    caller, when the query succeeds and none of the first rows of the
    caller's partition (oldest first, as many as the page holds) carries
    the requested id, Get and Delete answer 404 and change nothing, also
    when a later row of the caller carries that id: the diagram exists
    and cannot be fetched or deleted through the handler. *)
Theorem first_page_hides_later_rows env event st userId wanted :
  getUserId event = Ok userId →
  pathParameters_diagramId event = Some wanted →
  wanted ≠ EmptyString →
  sdk_fault env (locate_command userId wanted) = None →
  (∀ it, it ∈ first_rows env userId (world st) → diagramId it ≠ wanted) →
  getDiagram env event st
    = (Ok {| statusCode := 404; response_body := BError "Diagram not found" |},
       logged (locate_command userId wanted) (world st) st) ∧
  deleteDiagram env event st
    = (Ok {| statusCode := 404; response_body := BError "Diagram not found" |},
       logged (locate_command userId wanted) (world st) st).
Proof.
  intros Hu Hid Hne Hq Hnone.
  assert (truthy (Some wanted) = true) as Ht by (by destruct wanted).
  assert (located env userId wanted (world st) = []) as Hpage.
  { unfold located, query_page. fold (first_rows env userId (world st)).
    destruct (filter _ _) as [|it rest] eqn:Hfilter; [reflexivity|].
    assert (it ∈ filter (λ it, diagramId it = wanted) (first_rows env userId (world st)))
      as Hin by (rewrite Hfilter; left).
    apply list_elem_of_filter in Hin as [Hd Hin]. by destruct (Hnone it Hin). }
  rewrite getDiagram_unfold, deleteDiagram_unfold, Hu, Hid, Ht. simpl.
  by rewrite Hq, Hpage.
Qed.

Lemma first_page_hides_later_rows_witness :
  matches "alice" "1704067201000-82mvyr" (world Fixture.st_later) Fixture.alice_later_item ∧
  (getDiagram Fixture.env_small_page (Fixture.get_by "alice" "1704067201000-82mvyr")
              Fixture.st_later).1
    = Ok {| statusCode := 404; response_body := BError "Diagram not found" |}.
Proof.
  split.
  - split; [reflexivity|]. split; [by_evaluation|reflexivity].
  - destruct (first_page_hides_later_rows Fixture.env_small_page
                (Fixture.get_by "alice" "1704067201000-82mvyr") Fixture.st_later
                "alice" "1704067201000-82mvyr") as [Hget _].
    + reflexivity.
    + reflexivity.
    + discriminate.
    + reflexivity.
    + assert (first_rows Fixture.env_small_page "alice" (world Fixture.st_later)
              = [Fixture.alice_item]) as -> by by_evaluation.
      intros it ->%list_elem_of_singleton. discriminate.
    + by rewrite Hget.
Defined.
